(** * currency-snap: the rate-cache and preference service

    A shallow embedding of [CurrencyService] (services/currencyService.ts):
    the exchange-rate fetch with its cache and stale fallback, the pure
    conversion helper, and the favourites / base-currency preferences kept
    in AsyncStorage.

    Modelling choices, all read off the source:
    - a JS [number] is an IEEE-754 binary64 value, taken from the Standard
      Library's [spec_float] (precision 53, emax 1024); timestamps are the
      integer milliseconds that [Date.now()] returns, kept in [Z];
    - an [ExchangeRates] object is a finite map from currency code to
      number: its own properties, as the TypeScript interface declares.
      A property read [obj[name]] also looks where JavaScript looks: a name
      the object does not own is found on [Object.prototype] when it is
      one of that object's members ([get_property]);
    - AsyncStorage is a finite map from keys to strings; every call to it
      may reject, which the environment decides call by call, and a
      rejected write leaves the store as it was;
    - [async] code is sequential state passing over a [World], a thrown
      exception is the [Throw] outcome, and [try { } catch { }] is
      [try_catch];
    - [JSON.parse] / [JSON.stringify] are platform functions: the service
      is written against the [Json] interface, at the type the source
      declares for each payload ([string[]] for the favourites,
      [CurrencyData | null] for a cached snapshot).  A stored text either
      decodes at that type or makes [JSON.parse] throw; texts that are
      valid JSON of another shape are outside the model, as they are
      outside the source's types;
    - the default argument of [getExchangeRates] ([USD]) is supplied by
      the caller. *)

From Stdlib Require Import ZArith NArith Ascii String SpecFloat.
From stdpp Require Import base strings gmap list pretty sorting.

Local Open Scope Z_scope.
Local Open Scope string_scope.
Local Open Scope list_scope.

(** ** Numbers *)

Definition number : Type := spec_float.

Definition js_mul : number → number → number := SFmul 53 1024.

Definition pos_zero : number := S754_zero false.

(** [ToBoolean] on a number: [+0], [-0] and [NaN] are falsy. *)
Definition number_truthy (x : number) : bool :=
  match x with
  | S754_zero _ | S754_nan => false
  | S754_infinity _ | S754_finite _ _ _ => true
  end.

(** [===] against a number literal [0]: true of both zeros. *)
Definition is_zero (x : number) : bool :=
  match x with
  | S754_zero _ => true
  | _ => false
  end.

Definition sign_bit (x : number) : bool :=
  match x with
  | S754_zero s | S754_infinity s | S754_finite s _ _ => s
  | S754_nan => false
  end.

Definition is_finite (x : number) : bool :=
  match x with
  | S754_zero _ | S754_finite _ _ _ => true
  | S754_infinity _ | S754_nan => false
  end.

(** [ToBoolean] on a string: only the empty string is falsy. *)
Definition string_truthy (s : string) : bool :=
  match s with
  | EmptyString => false
  | String _ _ => true
  end.

(** ** Data model *)

Abbreviation ExchangeRates := (gmap string number).

Record CurrencyData := mkCurrencyData {
  rates : ExchangeRates;
  base : string;
  timestamp : Z;
}.

(** The members of [Object.prototype] (ECMA-262, Object.prototype and its
    legacy accessors): every plain object inherits them, so a read of one
    of these names on an object that does not own it finds the member.
    Each is a function, but for [__proto__], which reads as the prototype
    object itself: truthy values, and [NaN] as numbers. *)
Definition Object_prototype : list string :=
  [ "constructor"; "hasOwnProperty"; "isPrototypeOf"; "propertyIsEnumerable";
    "toLocaleString"; "toString"; "valueOf"; "__proto__";
    "__defineGetter__"; "__defineSetter__"; "__lookupGetter__"; "__lookupSetter__" ].

Definition is_inherited (name : string) : bool :=
  bool_decide (name ∈ Object_prototype).

(** What [obj[name]] finds on a plain object with own properties [obj]. *)
Inductive Property (A : Type) :=
  | Own (value : A)       (* an own property *)
  | Inherited             (* a member of [Object.prototype] *)
  | Undefined.            (* [undefined] *)
Arguments Own {A} value.
Arguments Inherited {A}.
Arguments Undefined {A}.

Definition get_property {A} (obj : gmap string A) (name : string) : Property A :=
  match obj !! name with
  | Some value => Own value
  | None => if is_inherited name then Inherited else Undefined
  end.

Definition CACHE_KEY : string := "currency_rates_cache".
Definition FAVORITES_KEY : string := "favorite_currencies".
Definition BASE_CURRENCY_KEY : string := "base_currency".
Definition CACHE_DURATION : Z := 6 * 60 * 60 * 1000.
Definition baseUrl : string := "https://api.exchangerate-api.com/v4/latest".

(** ** The platform: storage, network, clock, console *)

(** What [fetch] resolves to: the status and, when [response.json()]
    resolves, the [rates] and [base] fields the service reads from the
    body. *)
Record Payload := mkPayload {
  payload_rates : ExchangeRates;
  payload_base : string;
}.

Record Response := mkResponse {
  status : Z;
  body : option Payload;     (* [None]: [response.json()] rejects *)
}.

(** [response.ok] of the Fetch API: the status is in 200..299. *)
Definition ok (r : Response) : bool :=
  bool_decide (200 ≤ status r ≤ 299)%Z.

Inductive Event :=
  | GetItem (key : string)
  | SetItem (key value : string)
  | Fetch (url : string)
  | Now
  | ConsoleError (label : string).

(** The observable state: the contents of AsyncStorage and the calls made
    to the platform so far, most recent first. *)
Record World := mkWorld {
  disk : gmap string string;
  history : list Event;
}.

Definition is_read (e : Event) : bool :=
  match e with GetItem _ => true | _ => false end.
Definition is_write (e : Event) : bool :=
  match e with SetItem _ _ => true | _ => false end.
Definition is_fetch (e : Event) : bool :=
  match e with Fetch _ => true | _ => false end.
Definition is_now (e : Event) : bool :=
  match e with Now => true | _ => false end.

Fixpoint calls (kind : Event → bool) (h : list Event) : nat :=
  match h with
  | [] => 0%nat
  | e :: h' => if kind e then S (calls kind h') else calls kind h'
  end.

(** The environment answers each platform call; the [n]-th call of a kind
    gets the [n]-th answer of that kind, so any run of the real platform is
    some [Env]. *)
Record Env := mkEnv {
  getItem_rejects : nat → string → bool;
  setItem_rejects : nat → string → bool;
  fetch_response : nat → string → option Response;  (* [None]: [fetch] rejects *)
  clock : nat → Z;
}.

Inductive Exn :=
  | StorageError                 (* an AsyncStorage promise rejected *)
  | SyntaxError                  (* [JSON.parse] on an undecodable payload *)
  | NetworkError                 (* [fetch] rejected *)
  | BodyError                    (* [response.json()] rejected *)
  | Error (message : string).    (* [new Error(message)] *)

Inductive Outcome (A : Type) :=
  | Return (a : A)
  | Throw (e : Exn).
Arguments Return {A} a.
Arguments Throw {A} e.

Definition Async (A : Type) : Type := Env → World → Outcome A * World.

Definition ret {A} (a : A) : Async A := λ _ w, (Return a, w).

Definition throw {A} (e : Exn) : Async A := λ _ w, (Throw e, w).

Definition bind {A B} (m : Async A) (k : A → Async B) : Async B :=
  λ env w,
    match m env w with
    | (Return a, w') => k a env w'
    | (Throw e, w') => (Throw e, w')
    end.

Definition try_catch {A} (m : Async A) (handler : Exn → Async A) : Async A :=
  λ env w,
    match m env w with
    | (Return a, w') => (Return a, w')
    | (Throw e, w') => handler e env w'
    end.

#[global] Instance Async_ret : MRet Async := @ret.
#[global] Instance Async_bind : MBind Async := λ A B k m, bind m k.

Definition log_call (e : Event) (w : World) : World :=
  {| disk := disk w; history := e :: history w |}.

Definition AsyncStorage_getItem (key : string) : Async (option string) :=
  λ env w,
    let w' := log_call (GetItem key) w in
    if getItem_rejects env (calls is_read (history w)) key
    then (Throw StorageError, w')
    else (Return (disk w !! key), w').

Definition AsyncStorage_setItem (key value : string) : Async unit :=
  λ env w,
    let w' := log_call (SetItem key value) w in
    if setItem_rejects env (calls is_write (history w)) key
    then (Throw StorageError, w')
    else (Return tt, {| disk := <[key := value]> (disk w'); history := history w' |}).

Definition fetch (url : string) : Async Response :=
  λ env w,
    let w' := log_call (Fetch url) w in
    match fetch_response env (calls is_fetch (history w)) url with
    | Some r => (Return r, w')
    | None => (Throw NetworkError, w')
    end.

Definition response_json (r : Response) : Async Payload :=
  match body r with
  | Some p => ret p
  | None => throw BodyError
  end.

Definition Date_now : Async Z :=
  λ env w, (Return (clock env (calls is_now (history w))), log_call Now w).

Definition console_error (label : string) : Async unit :=
  λ _ w, (Return tt, log_call (ConsoleError label) w).

(** [JSON] at a payload type: [parse] is [None] where [JSON.parse] throws
    a [SyntaxError]. *)
Class Json (A : Type) := {
  stringify : A → string;
  parse : string → option A;
}.

Definition JSON_parse {A} `{Json A} (text : string) : Async A :=
  match parse text with
  | Some v => ret v
  | None => throw SyntaxError
  end.

(** ** The service *)

Section Service.
Context `{JsonFavorites : Json (list string)}.
Context `{JsonSnapshot : Json (option CurrencyData)}.

Definition cacheKey (baseCurrency : string) : string :=
  CACHE_KEY +:+ "_" +:+ baseCurrency.

Definition ratesUrl (baseCurrency : string) : string :=
  baseUrl +:+ "/" +:+ baseCurrency.

Definition getCachedRates (baseCurrency : string) : Async (option CurrencyData) :=
  try_catch
    (cached ← AsyncStorage_getItem (cacheKey baseCurrency);
     match cached with
     | Some text => if string_truthy text then JSON_parse text else mret None
     | None => mret None
     end)
    (λ error, console_error "Error reading cached rates:";; mret None).

Definition cacheRates (baseCurrency : string) (data : CurrencyData) : Async unit :=
  try_catch
    (AsyncStorage_setItem (cacheKey baseCurrency) (stringify (Some data)))
    (λ error, console_error "Error caching rates:").

Definition isCacheValid (timestamp : Z) : Async bool :=
  now ← Date_now; mret (bool_decide (now - timestamp < CACHE_DURATION)%Z).

Definition unavailable : string :=
  "Unable to fetch exchange rates. Please check your internet connection.".

(** The network step of [getExchangeRates] (lines 51-65). *)
Definition getExchangeRates_network (baseCurrency : string) : Async CurrencyData :=
  response ← fetch (ratesUrl baseCurrency);
  if negb (ok response)
  then throw (Error ("API Error: " +:+ pretty (status response)))
  else
    data ← response_json response;
    now ← Date_now;
    let currencyData :=
      {| rates := payload_rates data;
         base := payload_base data;
         timestamp := now |} in
    cacheRates baseCurrency currencyData;;
    mret currencyData.

(** The [try] block of [getExchangeRates] (lines 46-65): the cache
    check, then the network step. *)
Definition getExchangeRates_try (baseCurrency : string) : Async CurrencyData :=
  cachedData ← getCachedRates baseCurrency;
  valid ← match cachedData with
          | Some d => isCacheValid (timestamp d)
          | None => mret false
          end;
  match cachedData, valid with
  | Some d, true => mret d
  | _, _ => getExchangeRates_network baseCurrency
  end.

(** Its [catch] block (lines 67-75). *)
Definition getExchangeRates_catch (baseCurrency : string) (error : Exn)
    : Async CurrencyData :=
  console_error "Error fetching exchange rates:";;
  (* Try to return cached data even if expired *)
  cachedData ← getCachedRates baseCurrency;
  match cachedData with
  | Some d => mret d
  | None => throw (Error unavailable)
  end.

Definition getExchangeRates (baseCurrency : string) : Async CurrencyData :=
  try_catch (getExchangeRates_try baseCurrency) (getExchangeRates_catch baseCurrency).

Definition convertCurrency
    (amount : number) (fromCurrency toCurrency : string)
    (rates : ExchangeRates) : number :=
  if bool_decide (fromCurrency = toCurrency) then amount
  else
    js_mul amount
      (match get_property rates toCurrency with
       | Own rate => if number_truthy rate then rate else pos_zero
       | Inherited => S754_nan     (* a function or object: truthy, [NaN] as a factor *)
       | Undefined => pos_zero
       end).

Definition getFavoriteCurrencies : Async (list string) :=
  try_catch
    (favorites ← AsyncStorage_getItem FAVORITES_KEY;
     match favorites with
     | Some text => if string_truthy text then JSON_parse text else mret []
     | None => mret []
     end)
    (λ error, console_error "Error reading favorite currencies:";; mret []).

Definition setFavoriteCurrencies (favorites : list string) : Async unit :=
  try_catch
    (AsyncStorage_setItem FAVORITES_KEY (stringify favorites))
    (λ error, console_error "Error saving favorite currencies:").

Definition includes (favorites : list string) (currency : string) : bool :=
  bool_decide (currency ∈ favorites).

Definition addFavoriteCurrency (currency : string) : Async unit :=
  favorites ← getFavoriteCurrencies;
  if negb (includes favorites currency)
  then setFavoriteCurrencies (favorites ++ [currency])
  else mret tt.

Definition removeFavoriteCurrency (currency : string) : Async unit :=
  favorites ← getFavoriteCurrencies;
  let updatedFavorites := filter (λ fav, fav ≠ currency) favorites in
  setFavoriteCurrencies updatedFavorites.

Definition toggleFavoriteCurrency (currency : string) : Async bool :=
  favorites ← getFavoriteCurrencies;
  if includes favorites currency
  then removeFavoriteCurrency currency;; mret false
  else addFavoriteCurrency currency;; mret true.

Definition getBaseCurrency : Async string :=
  try_catch
    (baseCurrency ← AsyncStorage_getItem BASE_CURRENCY_KEY;
     let result :=
       match baseCurrency with
       | Some s => if string_truthy s then s else "USD"
       | None => "USD"
       end in
     mret result)
    (λ error, console_error "Error reading base currency:";; mret "USD").

Definition setBaseCurrency (currency : string) : Async unit :=
  try_catch
    (AsyncStorage_setItem BASE_CURRENCY_KEY currency)
    (λ error, console_error "Error saving base currency:").

End Service.

(** ** A reference JSON codec

    An executable [Json] instance for each payload type, used to run the
    service on concrete stores.  It reads the JSON fragment the service
    writes and the rate source sends: arrays of strings, objects of
    numbers, decimal numbers without exponent, [null]; string escapes are
    those of [JSON.stringify], with [\uXXXX] limited to one-byte code
    units.  Numbers are rounded to binary64 once, by [SFdiv]; they are
    printed as their exact decimal value. *)

Module Reference.

Inductive Token :=
  | TLBracket | TRBracket | TLBrace | TRBrace | TComma | TColon
  | TString (s : string)
  | TNumber (negative : bool) (digits : N) (scale : nat)
  | TNull.

Record NumState := mkNum {
  num_neg : bool;
  num_digits : N;
  num_int : nat;             (* digits read before the point *)
  num_frac : option nat;     (* digits read after the point, once seen *)
}.

Inductive LexMode :=
  | Idle
  | InString (rev_chars : string)
  | InNumber (n : NumState).

Inductive Idling :=
  | Skip
  | Emit (t : Token)
  | OpenString
  | OpenNumber (n : NumState)
  | OpenNull
  | Bad.

Definition dquote : ascii := ascii_of_N 34.

Definition digit (c : ascii) : option N :=
  let n := N_of_ascii c in
  if (48 <=? n)%N && (n <=? 57)%N then Some (n - 48)%N else None.

Definition hex (c : ascii) : option N :=
  let n := N_of_ascii c in
  if (48 <=? n)%N && (n <=? 57)%N then Some (n - 48)%N
  else if (97 <=? n)%N && (n <=? 102)%N then Some (n - 87)%N
  else if (65 <=? n)%N && (n <=? 70)%N then Some (n - 55)%N
  else None.

Definition whitespace (c : ascii) : bool :=
  let n := N_of_ascii c in
  (n =? 32)%N || (n =? 9)%N || (n =? 10)%N || (n =? 13)%N.

Definition classify (c : ascii) : Idling :=
  if whitespace c then Skip
  else if Ascii.eqb c "[" then Emit TLBracket
  else if Ascii.eqb c "]" then Emit TRBracket
  else if Ascii.eqb c "{" then Emit TLBrace
  else if Ascii.eqb c "}" then Emit TRBrace
  else if Ascii.eqb c "," then Emit TComma
  else if Ascii.eqb c ":" then Emit TColon
  else if Ascii.eqb c dquote then OpenString
  else if Ascii.eqb c "-" then OpenNumber (mkNum true 0 0 None)
  else if Ascii.eqb c "n" then OpenNull
  else match digit c with
       | Some d => OpenNumber (mkNum false d 1 None)
       | None => Bad
       end.

Definition push_digit (d : N) (n : NumState) : NumState :=
  match num_frac n with
  | None => mkNum (num_neg n) (10 * num_digits n + d) (S (num_int n)) None
  | Some k => mkNum (num_neg n) (10 * num_digits n + d) (num_int n) (Some (S k))
  end.

(** A second digit after a leading [0] is not a JSON number. *)
Definition leading_zero (n : NumState) : bool :=
  match num_frac n with
  | None => (num_int n =? 1)%nat && (num_digits n =? 0)%N
  | Some _ => false
  end.

Definition finish (n : NumState) : option Token :=
  match num_int n, num_frac n with
  | O, _ => None
  | S _, None => Some (TNumber (num_neg n) (num_digits n) 0)
  | S _, Some O => None
  | S _, Some (S k) => Some (TNumber (num_neg n) (num_digits n) (S k))
  end.

(** One-character escapes after a backslash. *)
Definition simple_escape (e : ascii) : option ascii :=
  if Ascii.eqb e dquote then Some dquote
  else if Ascii.eqb e "\" then Some "\"%char
  else if Ascii.eqb e "/" then Some "/"%char
  else if Ascii.eqb e "b" then Some (ascii_of_N 8)
  else if Ascii.eqb e "f" then Some (ascii_of_N 12)
  else if Ascii.eqb e "n" then Some (ascii_of_N 10)
  else if Ascii.eqb e "r" then Some (ascii_of_N 13)
  else if Ascii.eqb e "t" then Some (ascii_of_N 9)
  else None.

Definition code_unit (h1 h2 h3 h4 : ascii) : option ascii :=
  match hex h1, hex h2, hex h3, hex h4 with
  | Some 0%N, Some 0%N, Some a, Some b => Some (ascii_of_N (16 * a + b))
  | _, _, _, _ => None
  end.

Fixpoint lex (mode : LexMode) (s : string) : option (list Token) :=
  match s with
  | EmptyString =>
      match mode with
      | Idle => Some []
      | InString _ => None
      | InNumber n => t ← finish n; Some [t]
      end
  | String c r =>
      match mode with
      | Idle =>
          match classify c with
          | Skip => lex Idle r
          | Emit t => cons t <$> lex Idle r
          | OpenString => lex (InString "") r
          | OpenNumber n => lex (InNumber n) r
          | OpenNull =>
              match r with
              | String "u" (String "l" (String "l" r')) => cons TNull <$> lex Idle r'
              | _ => None
              end
          | Bad => None
          end
      | InString acc =>
          if Ascii.eqb c dquote then cons (TString (String.rev acc)) <$> lex Idle r
          else if Ascii.eqb c "\" then
            match r with
            | String "u" (String h1 (String h2 (String h3 (String h4 r')))) =>
                match code_unit h1 h2 h3 h4 with
                | Some x => lex (InString (String x acc)) r'
                | None => None
                end
            | String e r' =>
                match simple_escape e with
                | Some x => lex (InString (String x acc)) r'
                | None => None
                end
            | EmptyString => None
            end
          else if (N_of_ascii c <? 32)%N then None
          else lex (InString (String c acc)) r
      | InNumber n =>
          match digit c with
          | Some d =>
              if leading_zero n then None else lex (InNumber (push_digit d n)) r
          | None =>
              if Ascii.eqb c "." then
                match num_int n, num_frac n with
                | S _, None =>
                    lex (InNumber (mkNum (num_neg n) (num_digits n) (num_int n) (Some O))) r
                | _, _ => None
                end
              else
                match finish n, classify c with
                | Some t, Skip => cons t <$> lex Idle r
                | Some t, Emit t' => (λ ts, t :: t' :: ts) <$> lex Idle r
                | _, _ => None
                end
          end
      end
  end.

(** *** Arrays of strings *)

Fixpoint more_strings (ts : list Token) : option (list string) :=
  match ts with
  | [TRBracket] => Some []
  | TComma :: TString s :: ts' => cons s <$> more_strings ts'
  | _ => None
  end.

(** The tokens that follow the first element of an array of strings. *)
Fixpoint tail_tokens (l : list string) : list Token :=
  match l with
  | [] => [TRBracket]
  | x :: rest => TComma :: TString x :: tail_tokens rest
  end.

Definition strings_of_tokens (ts : list Token) : option (list string) :=
  match ts with
  | [TLBracket; TRBracket] => Some []
  | TLBracket :: TString s :: ts' => cons s <$> more_strings ts'
  | _ => None
  end.

Definition hex_digit (n : N) : ascii :=
  if (n <? 10)%N then ascii_of_N (48 + n) else ascii_of_N (87 + n).

Definition escape_char (c : ascii) : string :=
  let n := N_of_ascii c in
  if Ascii.eqb c dquote then String "\" (String dquote "")
  else if Ascii.eqb c "\" then "\\"
  else if (n =? 8)%N then "\b"
  else if (n =? 12)%N then "\f"
  else if (n =? 10)%N then "\n"
  else if (n =? 13)%N then "\r"
  else if (n =? 9)%N then "\t"
  else if (n <? 32)%N
       then "\u00" +:+ String (hex_digit (n / 16)) (String (hex_digit (n mod 16)) "")
  else String c "".

Fixpoint escape (s : string) : string :=
  match s with
  | EmptyString => ""
  | String c r => escape_char c +:+ escape r
  end.

Definition quote (s : string) : string :=
  String dquote (escape s +:+ String dquote "").

Fixpoint join (sep : string) (parts : list string) : string :=
  match parts with
  | [] => ""
  | [x] => x
  | x :: rest => x +:+ sep +:+ join sep rest
  end.

Definition stringify_strings (l : list string) : string :=
  "[" +:+ join "," (quote <$> l) +:+ "]".

Definition parse_strings (text : string) : option (list string) :=
  ts ← lex Idle text; strings_of_tokens ts.

(** *** Snapshots *)

(** The binary64 nearest to [digits / 10^scale], signed. *)
Definition number_of_decimal (negative : bool) (digits : N) (scale : nat) : number :=
  match digits with
  | N0 => S754_zero negative
  | Npos m =>
      SFdiv 53 1024
        (S754_finite negative m 0)
        (S754_finite false (Z.to_pos (10 ^ Z.of_nat scale)) 0)
  end.

Definition integer_of_decimal (negative : bool) (digits : N) (scale : nat) : option Z :=
  match scale with
  | O => Some (if negative then - Z.of_N digits else Z.of_N digits)%Z
  | S _ => None
  end.

Record Partial := mkPartial {
  p_rates : option ExchangeRates;
  p_base : option string;
  p_timestamp : option Z;
}.

Definition add_rate (code : string) (rate : number) (p : Partial) : Partial :=
  mkPartial (Some (<[code := rate]> (default ∅ (p_rates p)))) (p_base p) (p_timestamp p).

Definition complete (p : Partial) : option CurrencyData :=
  r ← p_rates p; b ← p_base p; t ← p_timestamp p; Some (mkCurrencyData r b t).

(** The members of the snapshot object, in any order; [inner] while
    inside the [rates] object. *)
Fixpoint members (inner : bool) (ts : list Token) (p : Partial) : option Partial :=
  let close rest q :=
    match rest with
    | [TRBrace] => Some q
    | TComma :: ts3 => members false ts3 q
    | _ => None
    end in
  match ts with
  | TString key :: TColon :: value :: ts1 =>
      if inner then
        match value, ts1 with
        | TNumber sg d e, TComma :: ts2 =>
            members true ts2 (add_rate key (number_of_decimal sg d e) p)
        | TNumber sg d e, TRBrace :: ts2 =>
            close ts2 (add_rate key (number_of_decimal sg d e) p)
        | _, _ => None
        end
      else if String.eqb key "rates" then
        match value, ts1 with
        | TLBrace, TRBrace :: ts2 =>
            close ts2 (mkPartial (Some ∅) (p_base p) (p_timestamp p))
        | TLBrace, _ =>
            members true ts1 (mkPartial (Some ∅) (p_base p) (p_timestamp p))
        | _, _ => None
        end
      else if String.eqb key "base" then
        match value with
        | TString b => close ts1 (mkPartial (p_rates p) (Some b) (p_timestamp p))
        | _ => None
        end
      else if String.eqb key "timestamp" then
        match value with
        | TNumber sg d e =>
            match integer_of_decimal sg d e with
            | Some t => close ts1 (mkPartial (p_rates p) (p_base p) (Some t))
            | None => None
            end
        | _ => None
        end
      else None
  | _ => None
  end.

Definition snapshot_of_tokens (ts : list Token) : option (option CurrencyData) :=
  match ts with
  | [TNull] => Some None
  | TLBrace :: rest => p ← members false rest (mkPartial None None None); Some <$> complete p
  | _ => None
  end.

Definition parse_snapshot (text : string) : option (option CurrencyData) :=
  ts ← lex Idle text; snapshot_of_tokens ts.

Fixpoint strip_zeros (rev_digits : string) : string :=
  match rev_digits with
  | String "0" r => strip_zeros r
  | _ => rev_digits
  end.

Fixpoint zeros (n : nat) : string :=
  match n with
  | O => ""
  | S k => String "0" (zeros k)
  end.

(** [n / 10^k] written out exactly, without trailing zeros. *)
Definition print_scaled (n : N) (k : nat) : string :=
  let unit := (10 ^ N.of_nat k)%N in
  let frac := pretty (n mod unit)%N in
  let padded := zeros (k - String.length frac) +:+ frac in
  match String.rev (strip_zeros (String.rev padded)) with
  | EmptyString => pretty (n / unit)%N
  | digits => pretty (n / unit)%N +:+ "." +:+ digits
  end.

Definition print_number (x : number) : string :=
  match x with
  | S754_zero _ => "0"
  | S754_infinity _ | S754_nan => "null"
  | S754_finite sg m e =>
      (if sg then "-" else "") +:+
      match e with
      | Zneg k => print_scaled (Npos m * 5 ^ Npos k)%N (Pos.to_nat k)
      | _ => pretty (Npos m * 2 ^ Z.to_N e)%N
      end
  end.

Definition print_rate (entry : string * number) : string :=
  quote entry.1 +:+ ":" +:+ print_number entry.2.

Definition stringify_snapshot (v : option CurrencyData) : string :=
  match v with
  | None => "null"
  | Some d =>
      "{" +:+ quote "rates" +:+ ":{"
        +:+ join "," (print_rate <$> map_to_list (rates d)) +:+ "},"
        +:+ quote "base" +:+ ":" +:+ quote (base d) +:+ ","
        +:+ quote "timestamp" +:+ ":" +:+ pretty (timestamp d) +:+ "}"
  end.

#[export] Instance json_strings : Json (list string) :=
  {| stringify := stringify_strings; parse := parse_strings |}.

#[export] Instance json_snapshot : Json (option CurrencyData) :=
  {| stringify := stringify_snapshot; parse := parse_snapshot |}.

End Reference.

(** ** What the store holds, read without effects *)

Section Views.
Context `{JsonFavorites : Json (list string)}.
Context `{JsonSnapshot : Json (option CurrencyData)}.

(** The snapshot cached for a base currency, if the store has a
    decodable, non-null one. *)
Definition cached_snapshot (w : World) (baseCurrency : string) : option CurrencyData :=
  match disk w !! cacheKey baseCurrency with
  | Some text => if string_truthy text then default None (parse text) else None
  | None => None
  end.

(** The favourites sequence the store holds; empty when the key is
    absent or its payload is undecodable. *)
Definition stored_favorites (w : World) : list string :=
  match disk w !! FAVORITES_KEY with
  | Some text => if string_truthy text then default [] (parse text) else []
  | None => []
  end.

(** [JSON.parse (JSON.stringify l)] gives [l] back, and the text is not
    the empty string. *)
Definition round_trips (l : list string) : Prop :=
  string_truthy (stringify l) = true ∧ parse (stringify l) = Some l.

(** The payload under [key] is there and [JSON.parse] throws on it. *)
Definition undecodable_favorites (w : World) : Prop :=
  ∃ text, disk w !! FAVORITES_KEY = Some text ∧ string_truthy text = true
          ∧ parse (A := list string) text = None.

Definition undecodable_snapshot (w : World) (baseCurrency : string) : Prop :=
  ∃ text, disk w !! cacheKey baseCurrency = Some text ∧ string_truthy text = true
          ∧ parse (A := option CurrencyData) text = None.

End Views.

(** The next read of [key] is rejected by the store. *)
Definition read_fails (env : Env) (w : World) (key : string) : Prop :=
  getItem_rejects env (calls is_read (history w)) key = true.

(** The store answers every call. *)
Definition storage_available (env : Env) : Prop :=
  ∀ n key, getItem_rejects env n key = false ∧ setItem_rejects env n key = false.

(** The network step fails: [fetch] rejects, the status is not 2xx, or the
    body does not decode. *)
Definition fetch_fails (answer : option Response) : bool :=
  match answer with
  | None => true
  | Some r => negb (ok r) || match body r with Some _ => false | None => true end
  end.

(** The answer the network gives to the next [fetch] of [url]. *)
Definition next_fetch (env : Env) (w : World) (url : string) : option Response :=
  fetch_response env (calls is_fetch (history w)) url.

Definition returns {A} (m : Async A) (env : Env) (w : World) : Prop :=
  ∃ a w', m env w = (Return a, w').

(** Between [w] and [w'] the store was not written and the network was not
    called. *)
Definition quiet (w w' : World) : Prop :=
  disk w' = disk w
  ∧ calls is_write (history w') = calls is_write (history w)
  ∧ calls is_fetch (history w') = calls is_fetch (history w).

(** Between [w] and [w'] the store was not written. *)
Definition read_only (w w' : World) : Prop :=
  disk w' = disk w
  ∧ calls is_write (history w') = calls is_write (history w).

(** What [Date.now()] returns at its next call. *)
Definition next_clock (env : Env) (w : World) : Z :=
  clock env (calls is_now (history w)).

(** A mutation by [c] took the favourites from [before] to [after] without
    introducing a duplicate and without reordering: [after] is [before]
    with [c] possibly dropped or appended at the end, and every other code
    stays where it was. *)
Definition preserves (c : string) (before after : list string) : Prop :=
  (NoDup before → NoDup after)
  ∧ after `sublist_of` before ++ [c]
  ∧ filter (λ fav, fav ≠ c) after = filter (λ fav, fav ≠ c) before.

(** ** The rest of the service: the currency list and the symbol table *)

Definition POPULAR_CURRENCIES : list string :=
  [ "USD"; "EUR"; "GBP"; "JPY"; "AUD"; "CAD"; "CHF"; "CNY"; "SEK"; "NZD";
    "MXN"; "SGD"; "HKD"; "NOK"; "TRY"; "RUB"; "INR"; "BRL"; "ZAR"; "KRW" ].

(** The object literal of [getCurrencySymbol]; glyphs are kept as the
    bytes of the source file. *)
Definition symbols : gmap string string :=
  list_to_map
    [ ("USD", "$"); ("EUR", "€"); ("GBP", "£"); ("JPY", "¥"); ("AUD", "A$");
      ("CAD", "C$"); ("CHF", "CHF"); ("CNY", "¥"); ("SEK", "kr"); ("NZD", "NZ$");
      ("MXN", "$"); ("SGD", "S$"); ("HKD", "HK$"); ("NOK", "kr"); ("TRY", "₺");
      ("RUB", "₽"); ("INR", "₹"); ("BRL", "R$"); ("ZAR", "R"); ("KRW", "₩") ].

(** What [getCurrencySymbol] returns: a string, or, for a name it finds
    on [Object.prototype], that member, which is not a string. *)
Inductive Symbol :=
  | Text (s : string)
  | Member.

Definition getCurrencySymbol (currency : string) : Symbol :=
  match get_property symbols currency with
  | Own glyph => if string_truthy glyph then Text glyph else Text currency
  | Inherited => Member
  | Undefined => Text currency
  end.

(** Every key but [key] holds in [w'] what it held in [w]. *)
Definition touches_only (key : string) (w w' : World) : Prop :=
  ∀ k, k ≠ key → disk w' !! k = disk w !! k.

(** Whatever the environment does, running [m] changes no key of the
    store but [key]. *)
Definition frames {A} (key : string) (m : Async A) : Prop :=
  ∀ env w, touches_only key w (m env w).2.

(** [JSON.parse (JSON.stringify data)] gives the snapshot back, and the
    text is not the empty string. *)
Definition snapshot_round_trips `{Json (option CurrencyData)} (data : CurrencyData) : Prop :=
  string_truthy (stringify (Some data)) = true
  ∧ parse (stringify (Some data)) = Some (Some data).

(** The network answers the next fetch of [url] with a 2xx status and a
    body that decodes to [p]. *)
Definition fetch_succeeds (env : Env) (w : World) (url : string) (p : Payload) : Prop :=
  ∃ r, next_fetch env w url = Some r ∧ ok r = true ∧ body r = Some p.

(** The snapshot a successful network step returns: the payload's fields,
    stamped [now]. *)
Definition stamped (p : Payload) (now : Z) : CurrencyData :=
  {| rates := payload_rates p; base := payload_base p; timestamp := now |}.

(** ** The screen component (components/CurrencyConverter.tsx)

    The component's state is the tuple of its [useState] cells; a handler
    is modelled by the state it leaves once it has run, its [setX] calls
    applied in order.  [Intl.NumberFormat], [parseFloat], [Array.sort]
    with [localeCompare] and the messages of platform exceptions are the
    platform's: the component is written against them as parameters. *)

(** The service object the component imports. *)
Module currencyService.
Abbreviation getExchangeRates := getExchangeRates.
Abbreviation convertCurrency := convertCurrency.
Abbreviation getCurrencySymbol := getCurrencySymbol.
Abbreviation getFavoriteCurrencies := getFavoriteCurrencies.
Abbreviation toggleFavoriteCurrency := toggleFavoriteCurrency.
Abbreviation getBaseCurrency := getBaseCurrency.
Abbreviation setBaseCurrency := setBaseCurrency.
End currencyService.

Module CurrencyConverter.

Record State := mkState {
  amount : string;
  baseCurrency : string;
  currencyData : option CurrencyData;
  loading : bool;
  error : option string;
  favoriteCurrencies : list string;
}.

(** The initial values of the [useState] cells. *)
Definition initial : State :=
  {| amount := ""; baseCurrency := "USD"; currencyData := None;
     loading := false; error := None; favoriteCurrencies := [] |}.

Definition setAmount (v : string) (st : State) : State :=
  mkState v (baseCurrency st) (currencyData st) (loading st) (error st)
    (favoriteCurrencies st).
Definition setBaseCurrency (v : string) (st : State) : State :=
  mkState (amount st) v (currencyData st) (loading st) (error st)
    (favoriteCurrencies st).
Definition setCurrencyData (v : option CurrencyData) (st : State) : State :=
  mkState (amount st) (baseCurrency st) v (loading st) (error st)
    (favoriteCurrencies st).
Definition setLoading (v : bool) (st : State) : State :=
  mkState (amount st) (baseCurrency st) (currencyData st) v (error st)
    (favoriteCurrencies st).
Definition setError (v : option string) (st : State) : State :=
  mkState (amount st) (baseCurrency st) (currencyData st) (loading st) v
    (favoriteCurrencies st).
Definition setFavoriteCurrencies (v : list string) (st : State) : State :=
  mkState (amount st) (baseCurrency st) (currencyData st) (loading st) (error st) v.

(** The class [[0-9.]] of [handleAmountChange]. *)
Definition numeric_char (c : ascii) : bool :=
  let n := N_of_ascii c in
  ((48 <=? n)%N && (n <=? 57)%N) || Ascii.eqb c ".".

(** [text.replace(/[^0-9.]/g, EMPTY)]: every character outside the class
    is dropped. *)
Fixpoint strip_non_numeric (text : string) : string :=
  match text with
  | EmptyString => ""
  | String c rest =>
      if numeric_char c then String c (strip_non_numeric rest)
      else strip_non_numeric rest
  end.

(** [s.split(DOT)]: the pieces between the dots, one more than there are
    dots. *)
Fixpoint split_dot (s : string) : list string :=
  match s with
  | EmptyString => [""]
  | String c rest =>
      if Ascii.eqb c "." then "" :: split_dot rest
      else match split_dot rest with
           | piece :: pieces => String c piece :: pieces
           | [] => [String c ""]
           end
  end.

Definition handleAmountChange (text : string) (st : State) : State :=
  let cleanText := strip_non_numeric text in
  let parts := split_dot cleanText in
  if (length parts <=? 2)%nat then setAmount cleanText st else st.

(** What the amount field is meant to hold: characters of the class
    only, with at most one dot. *)
Fixpoint all_numeric (s : string) : bool :=
  match s with
  | EmptyString => true
  | String c rest => numeric_char c && all_numeric rest
  end.

Fixpoint dots (s : string) : nat :=
  match s with
  | EmptyString => 0%nat
  | String c rest => if Ascii.eqb c "." then S (dots rest) else dots rest
  end.

Definition amount_ok (s : string) : bool :=
  all_numeric s && (dots s <=? 1)%nat.

(** The literal [0.01]. *)
Definition cent : number := Reference.number_of_decimal false 1 2.

Section Component.
Context `{JsonFavorites : Json (list string)}.
Context `{JsonSnapshot : Json (option CurrencyData)}.

(** [new Intl.NumberFormat(...).format(amount)] of [formatCurrency]. *)
Variable formatCurrency : number → string → string.
(** [parseFloat]. *)
Variable parseFloat : string → number.
(** [[...currencies].sort((a, b) => a.localeCompare(b))]. *)
Variable sort_by_locale : list string → list string.
(** [err.message] of an exception the platform raised. *)
Variable platform_message : Exn → string.
(** The text string concatenation makes of the member of
    [Object.prototype] found under a name. *)
Variable member_text : string → string.

(** [err instanceof Error ? err.message : ...]: every exception of the
    model is an [Error]. *)
Definition message_of (err : Exn) : string :=
  match err with
  | Error message => message
  | other => platform_message other
  end.

Definition loadBaseCurrency (st : State) : Async State :=
  try_catch
    (savedBaseCurrency ← currencyService.getBaseCurrency;
     mret (setBaseCurrency savedBaseCurrency st))
    (λ error,
       console_error "Error loading base currency:";;
       mret (setBaseCurrency "USD" st)).

Definition loadFavoriteCurrencies (st : State) : Async State :=
  try_catch
    (favorites ← currencyService.getFavoriteCurrencies;
     mret (setFavoriteCurrencies favorites st))
    (λ error, console_error "Error loading favorite currencies:";; mret st).

(** The [finally] block runs after either branch; neither lets an
    exception out. *)
Definition loadExchangeRates (st : State) : Async State :=
  if negb (string_truthy (baseCurrency st)) then mret st
  else
    let st := setError None (setLoading true st) in
    st ← try_catch
           (data ← currencyService.getExchangeRates (baseCurrency st);
            mret (setCurrencyData (Some data) st))
           (λ err,
              console_error "Error loading exchange rates:";;
              mret (setError (Some (message_of err)) st));
    mret (setLoading false st).

Definition handleCurrencyChange (currency : string) (st : State) : Async State :=
  let st := setBaseCurrency currency st in
  try_catch
    (currencyService.setBaseCurrency currency;; mret st)
    (λ error, console_error "Error saving base currency:";; mret st).

Definition handleToggleFavorite (currency : string) (st : State) : Async State :=
  try_catch
    (isNowFavorite ← currencyService.toggleFavoriteCurrency currency;
     loadFavoriteCurrencies st)
    (λ error, console_error "Error toggling favorite:";; mret st).

Definition getSortedCurrencies (currencies : list string) : list string :=
  sort_by_locale currencies.

Definition formatAmount (value : number) (currency : string) : string :=
  if SFltb value cent then
    match currencyService.getCurrencySymbol currency with
    | Text symbol => symbol
    | Member => member_text currency
    end +:+ "0.00"
  else formatCurrency value currency.

(** [parseFloat(amount) || 0]. *)
Definition numericAmount (st : State) : number :=
  let parsed := parseFloat (amount st) in
  if number_truthy parsed then parsed else pos_zero.

(** The amount [renderCurrencyItem] shows for [currency]; nothing while
    there is no rate data. *)
Definition renderedAmount (currency : string) (st : State) : option string :=
  match currencyData st with
  | None => None
  | Some data =>
      let convertedAmount :=
        currencyService.convertCurrency (numericAmount st) (baseCurrency st) currency (rates data) in
      Some (formatAmount convertedAmount currency)
  end.

(** The currencies of the favourites row and of the main list. *)
Definition favoritesRow (st : State) : list string :=
  getSortedCurrencies
    (filter (λ currency, currency ≠ baseCurrency st) (favoriteCurrencies st)).

Definition currencyList (st : State) : list string :=
  getSortedCurrencies
    (filter (λ currency, currency ≠ baseCurrency st) POPULAR_CURRENCIES).

End Component.

End CurrencyConverter.

(** ** Concrete stores and environments *)

Module Examples.
Import Reference.

(** A platform with an available store and no network: [fetch] rejects. *)
Definition offline : Env :=
  {| getItem_rejects := λ _ _, false;
     setItem_rejects := λ _ _, false;
     fetch_response := λ _ _, None;
     clock := λ _, 1700000000000 |}.

(** The rate table of the specification's example: EUR 0.9, JPY 150. *)
Definition usd_rates : ExchangeRates :=
  {[ "EUR" := number_of_decimal false 9 1;
     "JPY" := number_of_decimal false 150 0 ]}.

(** A platform with an available store and a rate source that answers
    every request with status 200 and the table [usd_rates]. *)
Definition online : Env :=
  {| getItem_rejects := λ _ _, false;
     setItem_rejects := λ _ _, false;
     fetch_response := λ _ _,
       Some {| status := 200;
               body := Some {| payload_rates := usd_rates; payload_base := "USD" |} |};
     clock := λ _, 1700000000000 |}.

(** A platform whose store rejects every call and whose rate source
    answers 503. *)
Definition broken : Env :=
  {| getItem_rejects := λ _ _, true;
     setItem_rejects := λ _ _, true;
     fetch_response := λ _ _, Some {| status := 503; body := None |};
     clock := λ _, 1700000000000 |}.

Definition five : number := number_of_decimal false 5 0.
Definition hundred : number := number_of_decimal false 100 0.
Definition infinity : number := S754_infinity false.

Definition empty_world : World := {| disk := ∅; history := [] |}.

Definition world_of (key text : string) : World :=
  {| disk := {[ key := text ]}; history := [] |}.

(** The text of a cached snapshot of [usd_rates], as found in the store. *)
Definition snapshot_text (stamp : string) : string :=
  "{" +:+ quote "rates" +:+ ":{" +:+ quote "EUR" +:+ ":0.9," +:+ quote "JPY" +:+ ":150},"
      +:+ quote "base" +:+ ":" +:+ quote "USD" +:+ ","
      +:+ quote "timestamp" +:+ ":" +:+ stamp +:+ "}".

(** Cached 10 000 s before the clock reading: fresh. *)
Definition fresh_snapshot : CurrencyData := mkCurrencyData usd_rates "USD" 1699990000000.
Definition fresh_world : World := world_of (cacheKey "USD") (snapshot_text "1699990000000").

(** Cached 100 000 000 s before the clock reading: stale. *)
Definition stale_snapshot : CurrencyData := mkCurrencyData usd_rates "USD" 1600000000000.
Definition stale_world : World := world_of (cacheKey "USD") (snapshot_text "1600000000000").

(** A store whose favourites are USD, EUR. *)
Definition favorites_world : World :=
  world_of FAVORITES_KEY ("[" +:+ quote "USD" +:+ "," +:+ quote "EUR" +:+ "]").

(** A store whose favourites payload is not JSON. *)
Definition corrupt_world : World := world_of FAVORITES_KEY "[oops".

End Examples.

(** ** Further stores, environments and screen states *)

Module Scenarios.
Import Reference Examples.

(** A store that answers reads and rejects writes; the network works. *)
Definition write_protected : Env :=
  {| getItem_rejects := λ _ _, false;
     setItem_rejects := λ _ _, true;
     fetch_response := fetch_response online;
     clock := clock online |}.

(** A store that rejects reads and accepts writes; no network. *)
Definition unreadable : Env :=
  {| getItem_rejects := λ _ _, true;
     setItem_rejects := λ _ _, false;
     fetch_response := λ _ _, None;
     clock := λ _, 1700000000000 |}.

(** The body the rate source of [online] sends. *)
Definition usd_payload : Payload :=
  {| payload_rates := usd_rates; payload_base := "USD" |}.

(** Cached exactly six hours before the clock reading. *)
Definition boundary_snapshot : CurrencyData := mkCurrencyData usd_rates "USD" 1699978400000.
Definition boundary_world : World := world_of (cacheKey "USD") (snapshot_text "1699978400000").

(** A decimal reader and a plain formatter, to run the screen with. *)
Definition decimal_of_text (text : string) : number :=
  match lex Idle text with
  | Some [TNumber negative digits scale] => number_of_decimal negative digits scale
  | _ => S754_nan
  end.

Definition plain_format (value : number) (currency : string) : string :=
  currency +:+ " " +:+ print_number value.

(** The text of the member of [Object.prototype] found under [name], as
    V8 prints it: the source text of a native function under the
    function's own name ([Object] for [constructor]), and
    [[object Object]] for the prototype object read through [__proto__]. *)
Definition member_source (name : string) : string :=
  if bool_decide (name = "__proto__") then "[object Object]"
  else if bool_decide (name = "constructor") then "function Object() { [native code] }"
  else "function " +:+ name +:+ "() { [native code] }".

(** The screen showing [usd_rates] with 100 typed in and USD, EUR as
    favourites. *)
Definition showing_rates : CurrencyConverter.State :=
  {| CurrencyConverter.amount := "100";
     CurrencyConverter.baseCurrency := "USD";
     CurrencyConverter.currencyData := Some fresh_snapshot;
     CurrencyConverter.loading := false;
     CurrencyConverter.error := None;
     CurrencyConverter.favoriteCurrencies := ["USD"; "EUR"] |}.

End Scenarios.

(** ** Properties *)

Section Platform.

Lemma bind_return {A B} (m : Async A) (k : A → Async B) env w a w' :
  m env w = (Return a, w') → (m ≫= k) env w = k a env w'.
Proof. intros Hm. unfold mbind, Async_bind, bind. by rewrite Hm. Qed.

Lemma bind_throw {A B} (m : Async A) (k : A → Async B) env w e w' :
  m env w = (Throw e, w') → (m ≫= k) env w = (Throw e, w').
Proof. intros Hm. unfold mbind, Async_bind, bind. by rewrite Hm. Qed.

Lemma try_catch_return {A} (m : Async A) h env w a w' :
  m env w = (Return a, w') → try_catch m h env w = (Return a, w').
Proof. intros Hm. unfold try_catch. by rewrite Hm. Qed.

Lemma try_catch_throw {A} (m : Async A) h env w e w' :
  m env w = (Throw e, w') → try_catch m h env w = h e env w'.
Proof. intros Hm. unfold try_catch. by rewrite Hm. Qed.

Lemma getItem_accepted env w key :
  getItem_rejects env (calls is_read (history w)) key = false →
  AsyncStorage_getItem key env w = (Return (disk w !! key), log_call (GetItem key) w).
Proof. intros Hr. unfold AsyncStorage_getItem. by rewrite Hr. Qed.

Lemma getItem_rejected env w key :
  getItem_rejects env (calls is_read (history w)) key = true →
  AsyncStorage_getItem key env w = (Throw StorageError, log_call (GetItem key) w).
Proof. intros Hr. unfold AsyncStorage_getItem. by rewrite Hr. Qed.

Lemma setItem_accepted env w key value :
  setItem_rejects env (calls is_write (history w)) key = false →
  AsyncStorage_setItem key value env w =
    (Return tt, {| disk := <[key := value]> (disk w);
                   history := SetItem key value :: history w |}).
Proof. intros Hr. unfold AsyncStorage_setItem. by rewrite Hr. Qed.

Lemma setItem_rejected env w key value :
  setItem_rejects env (calls is_write (history w)) key = true →
  AsyncStorage_setItem key value env w =
    (Throw StorageError, log_call (SetItem key value) w).
Proof. intros Hr. unfold AsyncStorage_setItem. by rewrite Hr. Qed.

Lemma string_truthy_nonempty s : string_truthy s = true ↔ s ≠ "".
Proof. destruct s; simpl; split; congruence. Qed.

End Platform.

Section Conversion.

(** C3. Converting between equal currencies returns the amount
    unchanged, for every amount (zero included), every currency code and
    every rate table (with or without an entry for the code). *)
Theorem convertCurrency_same_currency (a : number) (c : string) (table : ExchangeRates) :
  convertCurrency a c c table = a.
Proof. unfold convertCurrency. by rewrite bool_decide_eq_true_2. Qed.

Lemma js_mul_finite_zero a s :
  is_finite a = true → js_mul a (S754_zero s) = S754_zero (xorb (sign_bit a) s).
Proof. by destruct a. Qed.

Lemma get_property_undefined {A} (obj : gmap string A) name :
  obj !! name = None → is_inherited name = false → get_property obj name = Undefined.
Proof. intros Hnone Hnot. unfold get_property. by rewrite Hnone, Hnot. Qed.

Lemma get_property_own {A} (obj : gmap string A) name value :
  obj !! name = Some value → get_property obj name = Own value.
Proof. intros Hown. unfold get_property. by rewrite Hown. Qed.

Lemma get_property_inherited {A} (obj : gmap string A) name :
  obj !! name = None → is_inherited name = true → get_property obj name = Inherited.
Proof. intros Hnone Hin. unfold get_property. by rewrite Hnone, Hin. Qed.

(** C4, as the code has it. Let the rate table have no entry for the
    target, and let the target not be the name of a member of
    [Object.prototype] (which the read would find instead).  When the two
    codes are equal the amount is returned unchanged.  When they differ
    the missing rate counts as [+0]: the result is the product of the
    amount and [+0], and for a finite amount that product is a zero ([+0]
    for a non-negative amount, [-0] for a negative one, both equal to [0]
    under [===]).  The function is total, so it never fails. *)
Theorem convertCurrency_missing_rate
    (a : number) (fromCurrency toCurrency : string) (table : ExchangeRates) :
  table !! toCurrency = None →
  is_inherited toCurrency = false →
  (fromCurrency = toCurrency →
   convertCurrency a fromCurrency toCurrency table = a)
  ∧ (fromCurrency ≠ toCurrency →
     convertCurrency a fromCurrency toCurrency table = js_mul a pos_zero
     ∧ (is_finite a = true →
        convertCurrency a fromCurrency toCurrency table = S754_zero (sign_bit a)
        ∧ is_zero (convertCurrency a fromCurrency toCurrency table) = true)).
Proof.
  intros Hmiss Hnot. unfold convertCurrency. split.
  - intros Heq. by rewrite bool_decide_eq_true_2.
  - intros Hne. rewrite bool_decide_eq_false_2 by done.
    rewrite (get_property_undefined _ _ Hmiss Hnot).
    split; [done |]. intros Hfin.
    unfold pos_zero. rewrite js_mul_finite_zero by done.
    by rewrite xorb_false_r.
Qed.

(** A target that names a member of [Object.prototype] and has no entry of
    its own: the read finds the member, and the product is [NaN] whatever
    the amount. *)
Lemma convertCurrency_inherited_name
    (a : number) (fromCurrency toCurrency : string) (table : ExchangeRates) :
  fromCurrency ≠ toCurrency →
  table !! toCurrency = None →
  is_inherited toCurrency = true →
  convertCurrency a fromCurrency toCurrency table = S754_nan.
Proof.
  intros Hne Hmiss Hin. unfold convertCurrency.
  rewrite bool_decide_eq_false_2 by done.
  rewrite (get_property_inherited _ _ Hmiss Hin). by destruct a.
Qed.

End Conversion.

Section BaseCurrency.

Lemma getBaseCurrency_accepted env w :
  getItem_rejects env (calls is_read (history w)) BASE_CURRENCY_KEY = false →
  getBaseCurrency env w =
    (Return (match disk w !! BASE_CURRENCY_KEY with
             | Some s => if string_truthy s then s else "USD"
             | None => "USD"
             end),
     log_call (GetItem BASE_CURRENCY_KEY) w).
Proof.
  intros Hr. unfold getBaseCurrency.
  apply try_catch_return.
  by rewrite (bind_return _ _ _ _ _ _ (getItem_accepted _ _ _ Hr)).
Qed.

Lemma getBaseCurrency_rejected env w :
  getItem_rejects env (calls is_read (history w)) BASE_CURRENCY_KEY = true →
  getBaseCurrency env w =
    (Return "USD",
     log_call (ConsoleError "Error reading base currency:")
       (log_call (GetItem BASE_CURRENCY_KEY) w)).
Proof.
  intros Hr. unfold getBaseCurrency.
  by rewrite (try_catch_throw _ _ _ _ _ _
                (bind_throw _ _ _ _ _ _ (getItem_rejected _ _ _ Hr))).
Qed.

Lemma setBaseCurrency_accepted env w c :
  setItem_rejects env (calls is_write (history w)) BASE_CURRENCY_KEY = false →
  setBaseCurrency c env w =
    (Return tt, {| disk := <[BASE_CURRENCY_KEY := c]> (disk w);
                   history := SetItem BASE_CURRENCY_KEY c :: history w |}).
Proof.
  intros Hr. unfold setBaseCurrency.
  apply try_catch_return. by apply setItem_accepted.
Qed.

(** C6. When the store accepts the write and the read, [setBaseCurrency c]
    followed by [getBaseCurrency] returns [c], for every non-empty code
    [c] (so for [EUR]); and on a store with no base-currency key
    [getBaseCurrency] returns the default [USD], whether or not the read
    is rejected. *)
Theorem base_currency_set_then_get :
  (∀ env w c,
      c ≠ "" →
      setItem_rejects env (calls is_write (history w)) BASE_CURRENCY_KEY = false →
      getItem_rejects env (calls is_read (history w)) BASE_CURRENCY_KEY = false →
      ∃ w1 w2, setBaseCurrency c env w = (Return tt, w1)
               ∧ getBaseCurrency env w1 = (Return c, w2))
  ∧ (∀ env w,
      disk w !! BASE_CURRENCY_KEY = None →
      ∃ w', getBaseCurrency env w = (Return "USD", w')).
Proof.
  split.
  - intros env w c Hc Hw Hr. eexists _, _. split.
    + by apply setBaseCurrency_accepted.
    + rewrite getBaseCurrency_accepted by done. simpl.
      rewrite lookup_insert_eq.
      apply string_truthy_nonempty in Hc. by rewrite Hc.
  - intros env w Habsent.
    destruct (getItem_rejects env (calls is_read (history w)) BASE_CURRENCY_KEY) eqn:Hr.
    + eexists. by apply getBaseCurrency_rejected.
    + eexists. rewrite getBaseCurrency_accepted by done. by rewrite Habsent.
Qed.

(** C9. A stored empty string reads back as the default: if the store
    holds the empty string under the base-currency key, [getBaseCurrency]
    returns [USD]; so once the store accepts the write of
    [setBaseCurrency ""], the following [getBaseCurrency] returns [USD]
    and not the empty string. *)
Theorem base_currency_empty_string_is_default :
  (∀ env w,
      disk w !! BASE_CURRENCY_KEY = Some "" →
      ∃ w', getBaseCurrency env w = (Return "USD", w'))
  ∧ (∀ env w,
      setItem_rejects env (calls is_write (history w)) BASE_CURRENCY_KEY = false →
      ∃ w1 w2, setBaseCurrency "" env w = (Return tt, w1)
               ∧ disk w1 !! BASE_CURRENCY_KEY = Some ""
               ∧ getBaseCurrency env w1 = (Return "USD", w2)).
Proof.
  assert (Hget : ∀ env w, disk w !! BASE_CURRENCY_KEY = Some "" →
                 ∃ w', getBaseCurrency env w = (Return "USD", w')).
  { intros env w Hempty.
    destruct (getItem_rejects env (calls is_read (history w)) BASE_CURRENCY_KEY) eqn:Hr.
    - eexists. by apply getBaseCurrency_rejected.
    - eexists. rewrite getBaseCurrency_accepted by done. by rewrite Hempty. }
  split; [exact Hget |].
  intros env w Hw.
  set (w1 := {| disk := <[BASE_CURRENCY_KEY := ""]> (disk w);
                history := SetItem BASE_CURRENCY_KEY "" :: history w |}).
  assert (Hstored : disk w1 !! BASE_CURRENCY_KEY = Some "")
    by apply lookup_insert_eq.
  destruct (Hget env w1 Hstored) as [w2 Hw2].
  exists w1, w2. split; [by apply setBaseCurrency_accepted | done].
Qed.

End BaseCurrency.

Section Getters.
Context `{JsonFavorites : Json (list string)}.
Context `{JsonSnapshot : Json (option CurrencyData)}.

Lemma quiet_refl w : quiet w w.
Proof. done. Qed.

Lemma quiet_trans w1 w2 w3 : quiet w1 w2 → quiet w2 w3 → quiet w1 w3.
Proof. unfold quiet. intros (-> & -> & ->) (-> & -> & ->). done. Qed.

Lemma quiet_log e w :
  is_write e = false → is_fetch e = false → quiet w (log_call e w).
Proof. intros Hw Hf. unfold quiet. simpl. by rewrite Hw, Hf. Qed.

Lemma stored_favorites_quiet w w' :
  disk w' = disk w → stored_favorites w' = stored_favorites w.
Proof. unfold stored_favorites. by intros ->. Qed.

Lemma cached_snapshot_quiet w w' X :
  disk w' = disk w → cached_snapshot w' X = cached_snapshot w X.
Proof. unfold cached_snapshot. by intros ->. Qed.

(** A rejected read: the getter logs and returns its default. *)
Lemma getFavoriteCurrencies_rejected env w :
  read_fails env w FAVORITES_KEY →
  getFavoriteCurrencies env w =
    (Return [],
     log_call (ConsoleError "Error reading favorite currencies:")
       (log_call (GetItem FAVORITES_KEY) w)).
Proof.
  intros Hr. unfold getFavoriteCurrencies.
  by rewrite (try_catch_throw _ _ _ _ _ _
                (bind_throw _ _ _ _ _ _ (getItem_rejected _ _ _ Hr))).
Qed.

(** An accepted read: the getter returns what the store holds. *)
Lemma getFavoriteCurrencies_accepted env w :
  getItem_rejects env (calls is_read (history w)) FAVORITES_KEY = false →
  ∃ w', getFavoriteCurrencies env w = (Return (stored_favorites w), w')
        ∧ quiet w w'
        ∧ calls is_read (history w') = S (calls is_read (history w)).
Proof.
  intros Hr. unfold getFavoriteCurrencies, try_catch, stored_favorites.
  rewrite (bind_return _ _ _ _ _ _ (getItem_accepted _ _ _ Hr)).
  destruct (disk w !! FAVORITES_KEY) as [text|]; simpl;
    [destruct (string_truthy text); simpl;
     [unfold JSON_parse; destruct (parse text); simpl |] |];
    by eexists.
Qed.

Lemma getFavoriteCurrencies_total env w :
  ∃ l w', getFavoriteCurrencies env w = (Return l, w') ∧ quiet w w'.
Proof.
  destruct (getItem_rejects env (calls is_read (history w)) FAVORITES_KEY) eqn:Hr.
  - eexists _, _. split; [by apply getFavoriteCurrencies_rejected | done].
  - destruct (getFavoriteCurrencies_accepted env w Hr) as (w' & Hrun & Hq & _).
    eauto.
Qed.

Lemma getCachedRates_rejected env w X :
  read_fails env w (cacheKey X) →
  getCachedRates X env w =
    (Return None,
     log_call (ConsoleError "Error reading cached rates:")
       (log_call (GetItem (cacheKey X)) w)).
Proof.
  intros Hr. unfold getCachedRates.
  by rewrite (try_catch_throw _ _ _ _ _ _
                (bind_throw _ _ _ _ _ _ (getItem_rejected _ _ _ Hr))).
Qed.

Lemma getCachedRates_accepted env w X :
  getItem_rejects env (calls is_read (history w)) (cacheKey X) = false →
  ∃ w', getCachedRates X env w = (Return (cached_snapshot w X), w')
        ∧ quiet w w'
        ∧ calls is_read (history w') = S (calls is_read (history w))
        ∧ calls is_now (history w') = calls is_now (history w).
Proof.
  intros Hr. unfold getCachedRates, try_catch, cached_snapshot.
  rewrite (bind_return _ _ _ _ _ _ (getItem_accepted _ _ _ Hr)).
  destruct (disk w !! cacheKey X) as [text|]; simpl;
    [destruct (string_truthy text); simpl;
     [unfold JSON_parse; destruct (parse text); simpl |] |];
    by eexists.
Qed.

(** Whatever the store does, a cache read returns, touches neither the
    store nor the network, and yields either nothing or the snapshot the
    store holds. *)
Lemma getCachedRates_total env w X :
  ∃ r w', getCachedRates X env w = (Return r, w')
          ∧ quiet w w'
          ∧ calls is_now (history w') = calls is_now (history w)
          ∧ (r = None ∨ r = cached_snapshot w X).
Proof.
  destruct (getItem_rejects env (calls is_read (history w)) (cacheKey X)) eqn:Hr.
  - eexists _, _. split; [by apply getCachedRates_rejected |].
    split; [done |]. auto.
  - destruct (getCachedRates_accepted env w X Hr) as (w' & Hrun & Hq & _ & Hn).
    eauto 10.
Qed.

End Getters.

Section Favorites.
Context `{JsonFavorites : Json (list string)}.

Lemma setFavoriteCurrencies_accepted env w l :
  setItem_rejects env (calls is_write (history w)) FAVORITES_KEY = false →
  setFavoriteCurrencies l env w =
    (Return tt, {| disk := <[FAVORITES_KEY := stringify l]> (disk w);
                   history := SetItem FAVORITES_KEY (stringify l) :: history w |}).
Proof.
  intros Hr. unfold setFavoriteCurrencies.
  apply try_catch_return. by apply setItem_accepted.
Qed.

Lemma setFavoriteCurrencies_total env w l :
  ∃ w', setFavoriteCurrencies l env w = (Return tt, w').
Proof.
  unfold setFavoriteCurrencies, try_catch, AsyncStorage_setItem.
  destruct (setItem_rejects _ _ _); by eexists.
Qed.

(** What [getFavoriteCurrencies] finds after a write of [l]. *)
Lemma stored_favorites_written w l :
  disk w !! FAVORITES_KEY = Some (stringify l) →
  round_trips l →
  stored_favorites w = l.
Proof.
  intros Hd [Ht Hp]. unfold stored_favorites. by rewrite Hd, Ht, Hp.
Qed.

Lemma includes_true l c : includes l c = true ↔ c ∈ l.
Proof. unfold includes. apply bool_decide_eq_true. Qed.

Lemma includes_false l c : includes l c = false ↔ c ∉ l.
Proof. unfold includes. apply bool_decide_eq_false. Qed.

Lemma filter_absent (l : list string) c :
  c ∉ l → filter (λ fav, fav ≠ c) l = l.
Proof.
  intros Hc. induction l as [|x l IH]; [done |].
  apply not_elem_of_cons in Hc as [Hx Hl].
  rewrite filter_cons_True by congruence. by rewrite IH.
Qed.

Lemma filter_appended (l : list string) c :
  filter (λ fav, fav ≠ c) (l ++ [c]) = filter (λ fav, fav ≠ c) l.
Proof.
  rewrite filter_app, filter_cons_False by naive_solver.
  by rewrite filter_nil, app_nil_r.
Qed.

Lemma filter_excludes (l : list string) c :
  c ∉ filter (λ fav, fav ≠ c) l.
Proof. by intros [Hne _]%list_elem_of_filter. Qed.

Section Available.
Variable env : Env.
Hypothesis available : storage_available env.

Lemma getFavoriteCurrencies_available w :
  ∃ w', getFavoriteCurrencies env w = (Return (stored_favorites w), w')
        ∧ disk w' = disk w.
Proof.
  destruct (getFavoriteCurrencies_accepted env w) as (w' & Hrun & Hq & _).
  { apply available. }
  exists w'. split; [done | apply Hq].
Qed.

Lemma setFavoriteCurrencies_available w l :
  ∃ w', setFavoriteCurrencies l env w = (Return tt, w')
        ∧ disk w' = <[FAVORITES_KEY := stringify l]> (disk w).
Proof.
  eexists. split; [apply setFavoriteCurrencies_accepted, available | done].
Qed.

Lemma addFavoriteCurrency_available w c :
  ∃ w', addFavoriteCurrency c env w = (Return tt, w')
        ∧ disk w' =
            if includes (stored_favorites w) c then disk w
            else <[FAVORITES_KEY := stringify (stored_favorites w ++ [c])]> (disk w).
Proof.
  destruct (getFavoriteCurrencies_available w) as (w1 & Hget & Hd1).
  unfold addFavoriteCurrency. rewrite (bind_return _ _ _ _ _ _ Hget).
  destruct (includes (stored_favorites w) c); simpl.
  - by exists w1.
  - destruct (setFavoriteCurrencies_available w1 (stored_favorites w ++ [c]))
      as (w2 & Hset & Hd2).
    exists w2. by rewrite <- Hd1.
Qed.

Lemma removeFavoriteCurrency_available w c :
  ∃ w', removeFavoriteCurrency c env w = (Return tt, w')
        ∧ disk w' =
            <[FAVORITES_KEY :=
                stringify (filter (λ fav, fav ≠ c) (stored_favorites w))]> (disk w).
Proof.
  destruct (getFavoriteCurrencies_available w) as (w1 & Hget & Hd1).
  unfold removeFavoriteCurrency. rewrite (bind_return _ _ _ _ _ _ Hget).
  destruct (setFavoriteCurrencies_available w1
              (filter (λ fav, fav ≠ c) (stored_favorites w)))
    as (w2 & Hset & Hd2).
  exists w2. by rewrite <- Hd1.
Qed.

Lemma toggleFavoriteCurrency_available w c :
  ∃ w', toggleFavoriteCurrency c env w =
          (Return (negb (includes (stored_favorites w) c)), w')
        ∧ disk w' =
            <[FAVORITES_KEY :=
                stringify (if includes (stored_favorites w) c
                           then filter (λ fav, fav ≠ c) (stored_favorites w)
                           else stored_favorites w ++ [c])]> (disk w).
Proof.
  destruct (getFavoriteCurrencies_available w) as (w1 & Hget & Hd1).
  unfold toggleFavoriteCurrency. rewrite (bind_return _ _ _ _ _ _ Hget).
  pose proof (stored_favorites_quiet w w1 Hd1) as Hsame.
  destruct (includes (stored_favorites w) c) eqn:Hin; simpl.
  - destruct (removeFavoriteCurrency_available w1 c) as (w2 & Hrm & Hd2).
    rewrite (bind_return _ _ _ _ _ _ Hrm).
    exists w2. split; [done |]. by rewrite Hd2, Hsame, Hd1.
  - destruct (addFavoriteCurrency_available w1 c) as (w2 & Hadd & Hd2).
    rewrite (bind_return _ _ _ _ _ _ Hadd).
    exists w2. split; [done |]. by rewrite Hd2, Hsame, Hin, Hd1.
Qed.

End Available.

(** C10. [setFavoriteCurrencies l] stores the sequence as given, with no
    deduplication or validation: whenever the store accepts the write and
    the following read, and JSON gives [l] back, [getFavoriteCurrencies]
    after [setFavoriteCurrencies l] returns exactly [l], for every [l],
    duplicates included. *)
Theorem setFavoriteCurrencies_stores_verbatim env w (l : list string) :
  setItem_rejects env (calls is_write (history w)) FAVORITES_KEY = false →
  getItem_rejects env (calls is_read (history w)) FAVORITES_KEY = false →
  round_trips l →
  ∃ w1 w2, setFavoriteCurrencies l env w = (Return tt, w1)
           ∧ stored_favorites w1 = l
           ∧ getFavoriteCurrencies env w1 = (Return l, w2).
Proof.
  intros Hw Hr Hl.
  set (w1 := {| disk := <[FAVORITES_KEY := stringify l]> (disk w);
                history := SetItem FAVORITES_KEY (stringify l) :: history w |}).
  assert (Hstored : stored_favorites w1 = l).
  { apply stored_favorites_written; [apply lookup_insert_eq | done]. }
  destruct (getFavoriteCurrencies_accepted env w1 Hr) as (w2 & Hget & _).
  rewrite Hstored in Hget.
  exists w1, w2. split; [by apply setFavoriteCurrencies_accepted | done].
Qed.

(** The three mutators, on an available store, in terms of the
    favourites sequence held before and after. *)
Lemma favorites_after_add env w c :
  storage_available env →
  round_trips (stored_favorites w ++ [c]) →
  ∃ w', addFavoriteCurrency c env w = (Return tt, w')
        ∧ (c ∈ stored_favorites w → disk w' = disk w)
        ∧ stored_favorites w' =
            if includes (stored_favorites w) c then stored_favorites w
            else stored_favorites w ++ [c].
Proof.
  intros Ha Hrt.
  destruct (addFavoriteCurrency_available env Ha w c) as (w' & Hrun & Hd).
  exists w'. split; [done |].
  destruct (includes (stored_favorites w) c) eqn:Hin.
  - split; [done | by apply stored_favorites_quiet].
  - split; [by intros ?%includes_true; congruence |].
    apply stored_favorites_written; [| done].
    rewrite Hd. apply lookup_insert_eq.
Qed.

Lemma favorites_after_remove env w c :
  storage_available env →
  round_trips (filter (λ fav, fav ≠ c) (stored_favorites w)) →
  ∃ w', removeFavoriteCurrency c env w = (Return tt, w')
        ∧ stored_favorites w' = filter (λ fav, fav ≠ c) (stored_favorites w).
Proof.
  intros Ha Hrt.
  destruct (removeFavoriteCurrency_available env Ha w c) as (w' & Hrun & Hd).
  exists w'. split; [done |].
  apply stored_favorites_written; [| done].
  rewrite Hd. apply lookup_insert_eq.
Qed.

Lemma favorites_after_toggle env w c :
  storage_available env →
  round_trips (if includes (stored_favorites w) c
               then filter (λ fav, fav ≠ c) (stored_favorites w)
               else stored_favorites w ++ [c]) →
  ∃ w', toggleFavoriteCurrency c env w =
          (Return (negb (includes (stored_favorites w) c)), w')
        ∧ stored_favorites w' =
            if includes (stored_favorites w) c
            then filter (λ fav, fav ≠ c) (stored_favorites w)
            else stored_favorites w ++ [c].
Proof.
  intros Ha Hrt.
  destruct (toggleFavoriteCurrency_available env Ha w c) as (w' & Hrun & Hd).
  exists w'. split; [done |].
  apply stored_favorites_written; [rewrite Hd; apply lookup_insert_eq | done].
Qed.

Lemma preserves_same c l : preserves c l l.
Proof.
  split; [done |]. split; [| done]. by apply sublist_inserts_r.
Qed.

Lemma preserves_append c l : c ∉ l → preserves c l (l ++ [c]).
Proof.
  intros Hc. split; [| split].
  - intros Hnd. apply NoDup_app. split; [done |].
    split; [| apply NoDup_singleton].
    intros x Hx ->%list_elem_of_singleton. done.
  - done.
  - apply filter_appended.
Qed.

Lemma preserves_filter c l : preserves c l (filter (λ fav, fav ≠ c) l).
Proof.
  split; [| split].
  - apply NoDup_filter.
  - apply sublist_inserts_r, sublist_filter.
  - apply filter_absent, filter_excludes.
Qed.

(** C8. On an available store whose JSON gives the written sequences
    back: [addFavoriteCurrency c] leaves the store as it is when [c] is
    already a favourite and otherwise appends [c] at the end;
    [removeFavoriteCurrency c] drops [c]; [toggleFavoriteCurrency c] does
    the one or the other.  Each of the three keeps a duplicate-free
    sequence duplicate-free and keeps the order of the codes it keeps. *)
Theorem favorites_stay_unique_and_ordered env w c :
  storage_available env →
  round_trips (stored_favorites w ++ [c]) →
  round_trips (filter (λ fav, fav ≠ c) (stored_favorites w)) →
  (∃ w', addFavoriteCurrency c env w = (Return tt, w')
         ∧ (c ∈ stored_favorites w →
            disk w' = disk w ∧ stored_favorites w' = stored_favorites w)
         ∧ (c ∉ stored_favorites w →
            stored_favorites w' = stored_favorites w ++ [c])
         ∧ preserves c (stored_favorites w) (stored_favorites w'))
  ∧ (∃ w', removeFavoriteCurrency c env w = (Return tt, w')
           ∧ stored_favorites w' = filter (λ fav, fav ≠ c) (stored_favorites w)
           ∧ preserves c (stored_favorites w) (stored_favorites w'))
  ∧ (∃ b w', toggleFavoriteCurrency c env w = (Return b, w')
             ∧ preserves c (stored_favorites w) (stored_favorites w')).
Proof.
  intros Ha Hadd Hrm. split; [| split].
  - destruct (favorites_after_add env w c Ha Hadd) as (w' & Hrun & Hsame & Hl).
    exists w'. split; [done |].
    destruct (includes (stored_favorites w) c) eqn:Hin.
    + apply includes_true in Hin. rewrite Hl.
      split; [by intros _; split; [apply Hsame |] |].
      split; [done | apply preserves_same].
    + apply includes_false in Hin. rewrite Hl.
      split; [done |]. split; [done | by apply preserves_append].
  - destruct (favorites_after_remove env w c Ha Hrm) as (w' & Hrun & Hl).
    exists w'. split; [done |]. split; [done |].
    rewrite Hl. apply preserves_filter.
  - destruct (favorites_after_toggle env w c Ha) as (w' & Hrun & Hl).
    { by destruct (includes (stored_favorites w) c). }
    eexists _, w'. split; [done |]. rewrite Hl.
    destruct (includes (stored_favorites w) c) eqn:Hin.
    + apply preserves_filter.
    + apply preserves_append. by apply includes_false.
Qed.

(** C5, as the code has it. On an available store whose JSON gives the
    written sequences back, two toggles of [c] in a row return the
    membership each one leaves: [true] then [false] when [c] was not a
    favourite, and then the favourites sequence is back to what it was;
    [false] then [true] when [c] was one, and then the sequence holds the
    same codes, with [c] moved to the end. *)
Theorem toggleFavoriteCurrency_twice env w c :
  storage_available env →
  round_trips (filter (λ fav, fav ≠ c) (stored_favorites w)) →
  round_trips (filter (λ fav, fav ≠ c) (stored_favorites w) ++ [c]) →
  ∃ b1 w1 b2 w2,
    toggleFavoriteCurrency c env w = (Return b1, w1)
    ∧ toggleFavoriteCurrency c env w1 = (Return b2, w2)
    ∧ b1 = includes (stored_favorites w1) c
    ∧ b2 = includes (stored_favorites w2) c
    ∧ (c ∉ stored_favorites w →
       b1 = true ∧ b2 = false ∧ stored_favorites w2 = stored_favorites w)
    ∧ (c ∈ stored_favorites w →
       b1 = false ∧ b2 = true
       ∧ stored_favorites w2 = filter (λ fav, fav ≠ c) (stored_favorites w) ++ [c])
    ∧ (∀ x, x ∈ stored_favorites w2 ↔ x ∈ stored_favorites w).
Proof.
  intros Ha Hrm Hadd.
  destruct (includes (stored_favorites w) c) eqn:Hin.
  - (* [c] is a favourite: removed, then appended *)
    destruct (favorites_after_toggle env w c Ha) as (w1 & Hrun1 & Hl1);
      [by rewrite Hin |].
    rewrite Hin in Hrun1, Hl1.
    assert (Hout : includes (stored_favorites w1) c = false).
    { rewrite Hl1. apply includes_false, filter_excludes. }
    destruct (favorites_after_toggle env w1 c Ha) as (w2 & Hrun2 & Hl2);
      [by rewrite Hout, Hl1 |].
    rewrite Hout in Hrun2, Hl2. rewrite Hl1 in Hl2.
    apply includes_true in Hin.
    exists false, w1, true, w2. split; [done |]. split; [done |].
    split; [done |].
    split; [symmetry; rewrite Hl2; apply includes_true; set_solver |].
    split; [done |]. split; [done |].
    intros x. rewrite Hl2, elem_of_app, list_elem_of_filter, list_elem_of_singleton.
    split.
    + by intros [[_ Hx] | ->].
    + intros Hx. destruct (decide (x = c)); [by right | by left].
  - (* [c] is not a favourite: appended, then removed *)
    apply includes_false in Hin as Hnot.
    rewrite (filter_absent _ _ Hnot) in Hrm, Hadd.
    destruct (favorites_after_toggle env w c Ha) as (w1 & Hrun1 & Hl1);
      [by rewrite Hin |].
    rewrite Hin in Hrun1, Hl1.
    assert (Hnow : includes (stored_favorites w1) c = true).
    { rewrite Hl1. apply includes_true. set_solver. }
    assert (Hback : filter (λ fav, fav ≠ c) (stored_favorites w1) = stored_favorites w).
    { rewrite Hl1, filter_appended. by apply filter_absent. }
    destruct (favorites_after_toggle env w1 c Ha) as (w2 & Hrun2 & Hl2);
      [by rewrite Hnow, Hback |].
    rewrite Hnow, Hback in Hl2. rewrite Hnow in Hrun2.
    exists true, w1, false, w2. split; [done |]. split; [done |].
    split; [done |].
    split; [symmetry; rewrite Hl2; by apply includes_false |].
    split; [done |]. split; [done |].
    by rewrite Hl2.
Qed.

End Favorites.

Section Rates.
Context `{JsonFavorites : Json (list string)}.
Context `{JsonSnapshot : Json (option CurrencyData)}.

Lemma quiet_read_only w w' : quiet w w' → read_only w w'.
Proof. intros (Hd & Hw & _). by split. Qed.

Lemma isCacheValid_run env w t :
  isCacheValid t env w =
    (Return (bool_decide (next_clock env w - t < CACHE_DURATION)%Z), log_call Now w).
Proof. done. Qed.

(** C1. If the store holds a snapshot for [X], the read of it is
    accepted, and the snapshot is fresh at the clock reading
    ([Date.now() - timestamp < 6 hours]), then [getExchangeRates X]
    returns exactly that snapshot, and on the way the store is not
    written and the network is not called. *)
Theorem getExchangeRates_fresh_cache env w X d :
  cached_snapshot w X = Some d →
  getItem_rejects env (calls is_read (history w)) (cacheKey X) = false →
  (next_clock env w - timestamp d < CACHE_DURATION)%Z →
  ∃ w', getExchangeRates X env w = (Return d, w')
        ∧ disk w' = disk w
        ∧ calls is_write (history w') = calls is_write (history w)
        ∧ calls is_fetch (history w') = calls is_fetch (history w).
Proof.
  intros Hd Hr Hfresh.
  destruct (getCachedRates_accepted env w X Hr) as (w1 & Hrun & Hq & _ & Hn).
  rewrite Hd in Hrun.
  exists (log_call Now w1). split.
  - unfold getExchangeRates, getExchangeRates_try. apply try_catch_return.
    rewrite (bind_return _ _ _ _ _ _ Hrun).
    rewrite (bind_return _ _ _ _ _ _ (isCacheValid_run env w1 (timestamp d))).
    unfold next_clock in *. rewrite Hn.
    by rewrite bool_decide_eq_true_2.
  - destruct Hq as (Hq1 & Hq2 & Hq3). done.
Qed.

(** The [catch] block: it never writes, and what it yields is decided
    by its one read of the cache. *)
Lemma getExchangeRates_catch_accepted env w X e :
  getItem_rejects env (calls is_read (history w)) (cacheKey X) = false →
  ∃ w', getExchangeRates_catch X e env w =
          (match cached_snapshot w X with
           | Some d => Return d
           | None => Throw (Error unavailable)
           end, w')
        ∧ read_only w w'.
Proof.
  intros Hr. unfold getExchangeRates_catch.
  set (w0 := log_call (ConsoleError "Error fetching exchange rates:") w).
  destruct (getCachedRates_accepted env w0 X Hr) as (w' & Hrun & Hq & _).
  exists w'. split; [| by apply quiet_read_only].
  rewrite (bind_return _ _ _ _ _ w0 (eq_refl : console_error _ env w = (Return tt, w0))).
  rewrite (bind_return _ _ _ _ _ _ Hrun).
  change (cached_snapshot w0 X) with (cached_snapshot w X).
  by destruct (cached_snapshot w X).
Qed.

Lemma getExchangeRates_catch_empty env w X e :
  cached_snapshot w X = None →
  ∃ w', getExchangeRates_catch X e env w = (Throw (Error unavailable), w')
        ∧ read_only w w'.
Proof.
  intros Hnone. unfold getExchangeRates_catch.
  set (w0 := log_call (ConsoleError "Error fetching exchange rates:") w).
  destruct (getCachedRates_total env w0 X) as (r & w' & Hrun & Hq & _ & Hr).
  exists w'. split; [| by apply quiet_read_only].
  rewrite (bind_return _ _ _ _ _ w0 (eq_refl : console_error _ env w = (Return tt, w0))).
  rewrite (bind_return _ _ _ _ _ _ Hrun).
  change (cached_snapshot w0 X) with (cached_snapshot w X) in Hr.
  rewrite Hnone in Hr. by destruct Hr as [-> | ->].
Qed.

(** The network step under a failing network: it throws, having read
    the store once and written nothing. *)
Lemma network_step_fails env w X :
  fetch_fails (next_fetch env w (ratesUrl X)) = true →
  ∃ e w', getExchangeRates_network X env w = (Throw e, w')
          ∧ read_only w w'
          ∧ calls is_read (history w') = calls is_read (history w).
Proof.
  unfold next_fetch, fetch_fails. intros Hfail.
  unfold getExchangeRates_network, mbind at 1, Async_bind, bind, fetch.
  destruct (fetch_response env (calls is_fetch (history w)) (ratesUrl X))
    as [response|]; [| by eexists _, _].
  destruct (ok response); simpl in *; [| by eexists _, _].
  unfold response_json. destruct (body response); [done |].
  by eexists _, _.
Qed.

Lemma read_only_trans w1 w2 w3 : read_only w1 w2 → read_only w2 w3 → read_only w1 w3.
Proof. unfold read_only. intros (-> & ->) (-> & ->). done. Qed.

(** The [try] block under a failing network: a fresh hit returns the
    cached snapshot; anything else throws after one read and no write. *)
Lemma getExchangeRates_try_network_down env w X :
  fetch_fails (next_fetch env w (ratesUrl X)) = true →
  (∃ d w', getExchangeRates_try X env w = (Return d, w')
           ∧ cached_snapshot w X = Some d ∧ read_only w w')
  ∨ (∃ e w', getExchangeRates_try X env w = (Throw e, w')
             ∧ read_only w w'
             ∧ calls is_read (history w') = S (calls is_read (history w))).
Proof.
  intros Hfail. unfold getExchangeRates_try.
  assert (Hstep : ∀ w1, quiet w w1 →
            calls is_read (history w1) = S (calls is_read (history w)) →
            ∃ e w', getExchangeRates_network X env w1 = (Throw e, w')
                    ∧ read_only w w'
                    ∧ calls is_read (history w') = S (calls is_read (history w))).
  { intros w1 Hq Hreads.
    destruct (network_step_fails env w1 X) as (e & w' & Hrun & Hro & Hn).
    - unfold next_fetch in *. destruct Hq as (_ & _ & ->). done.
    - exists e, w'. split; [done |].
      split; [| congruence].
      eapply read_only_trans; [by apply quiet_read_only | done]. }
  destruct (getItem_rejects env (calls is_read (history w)) (cacheKey X)) eqn:Hr.
  - right. rewrite (bind_return _ _ _ _ _ _ (getCachedRates_rejected env w X Hr)).
    apply Hstep; done.
  - destruct (getCachedRates_accepted env w X Hr) as (w1 & Hrun & Hq & Hreads & _).
    rewrite (bind_return _ _ _ _ _ _ Hrun).
    destruct (cached_snapshot w X) as [d|] eqn:Hd.
    + rewrite (bind_return _ _ _ _ _ _ (isCacheValid_run env w1 (timestamp d))).
      destruct (bool_decide _).
      * left. exists d, (log_call Now w1). split; [done |]. split; [done |].
        by apply quiet_read_only.
      * right. apply Hstep; [| done].
        destruct Hq as (Hq1 & Hq2 & Hq3). done.
    + right. by apply Hstep.
Qed.

(** C2. If the network answers the fetch for [X] with a failure (the
    request is rejected, the status is not 2xx, or the body does not
    decode), then: when the store holds a snapshot for [X], stale or
    not, and accepts the read of the [catch] block, [getExchangeRates X]
    returns that snapshot; when it holds none, [getExchangeRates X]
    throws the rates-unavailable error with its connectivity message.
    The store is written in neither case. *)
Theorem getExchangeRates_network_failure env w X :
  fetch_fails (next_fetch env w (ratesUrl X)) = true →
  (∀ d, cached_snapshot w X = Some d →
        getItem_rejects env (S (calls is_read (history w))) (cacheKey X) = false →
        ∃ w', getExchangeRates X env w = (Return d, w') ∧ read_only w w')
  ∧ (cached_snapshot w X = None →
     ∃ w', getExchangeRates X env w =
             (Throw (Error "Unable to fetch exchange rates. Please check your internet connection."),
              w')
           ∧ read_only w w').
Proof.
  intros Hfail. unfold getExchangeRates.
  destruct (getExchangeRates_try_network_down env w X Hfail)
    as [(d0 & w1 & Hrun & Hd0 & Hro) | (e & w1 & Hrun & Hro & Hreads)].
  - rewrite (try_catch_return _ _ _ _ _ _ Hrun). split.
    + intros d Hd _. exists w1. split; [congruence | done].
    + congruence.
  - rewrite (try_catch_throw _ _ _ _ _ _ Hrun).
    assert (Hsame : cached_snapshot w1 X = cached_snapshot w X)
      by apply cached_snapshot_quiet, Hro.
    split.
    + intros d Hd Hr. rewrite <- Hreads in Hr.
      destruct (getExchangeRates_catch_accepted env w1 X e Hr) as (w' & Hc & Hro').
      rewrite Hsame, Hd in Hc.
      exists w'. split; [done | by eapply read_only_trans].
    + intros Hnone. rewrite <- Hsame in Hnone.
      destruct (getExchangeRates_catch_empty env w1 X e Hnone) as (w' & Hc & Hro').
      exists w'. split; [done | by eapply read_only_trans].
Qed.

End Rates.

Section Faults.
Context `{JsonFavorites : Json (list string)}.
Context `{JsonSnapshot : Json (option CurrencyData)}.

Lemma returns_bind {A B} (m : Async A) (k : A → Async B) env w :
  returns m env w → (∀ a w', returns (k a) env w') → returns (m ≫= k) env w.
Proof.
  intros (a & w' & Hm) Hk. unfold returns.
  rewrite (bind_return _ _ _ _ _ _ Hm). apply Hk.
Qed.

Lemma returns_mret {A} (a : A) env w : returns (mret a) env w.
Proof. by exists a, w. Qed.

Lemma getFavoriteCurrencies_returns env w : returns getFavoriteCurrencies env w.
Proof.
  destruct (getFavoriteCurrencies_total env w) as (l & w' & Hrun & _).
  by exists l, w'.
Qed.

Lemma setFavoriteCurrencies_returns env w l : returns (setFavoriteCurrencies l) env w.
Proof.
  destruct (setFavoriteCurrencies_total env w l) as (w' & Hrun).
  by exists tt, w'.
Qed.

Lemma addFavoriteCurrency_returns env w c : returns (addFavoriteCurrency c) env w.
Proof.
  apply returns_bind; [apply getFavoriteCurrencies_returns |].
  intros l w'. destruct (negb (includes l c)).
  - apply setFavoriteCurrencies_returns.
  - apply returns_mret.
Qed.

Lemma removeFavoriteCurrency_returns env w c : returns (removeFavoriteCurrency c) env w.
Proof.
  apply returns_bind; [apply getFavoriteCurrencies_returns |].
  intros l w'. apply setFavoriteCurrencies_returns.
Qed.

Lemma toggleFavoriteCurrency_returns env w c : returns (toggleFavoriteCurrency c) env w.
Proof.
  apply returns_bind; [apply getFavoriteCurrencies_returns |].
  intros l w'. destruct (includes l c).
  - apply returns_bind; [apply removeFavoriteCurrency_returns |].
    intros. apply returns_mret.
  - apply returns_bind; [apply addFavoriteCurrency_returns |].
    intros. apply returns_mret.
Qed.

Lemma setBaseCurrency_returns env w c : returns (setBaseCurrency c) env w.
Proof.
  unfold returns, setBaseCurrency, try_catch, AsyncStorage_setItem.
  destruct (setItem_rejects _ _ _); by eexists _, _.
Qed.

Lemma cacheRates_returns env w X d : returns (cacheRates X d) env w.
Proof.
  unfold returns, cacheRates, try_catch, AsyncStorage_setItem.
  destruct (setItem_rejects _ _ _); by eexists _, _.
Qed.

(** The only exception [getExchangeRates] lets out is its own
    rates-unavailable error. *)
Lemma getExchangeRates_throws_unavailable env w X e w' :
  getExchangeRates X env w = (Throw e, w') → e = Error unavailable.
Proof.
  unfold getExchangeRates, try_catch.
  destruct (getExchangeRates_try X env w) as [[d | e0] w1]; [done |].
  unfold getExchangeRates_catch.
  set (w0 := log_call (ConsoleError "Error fetching exchange rates:") w1).
  rewrite (bind_return _ _ _ _ _ w0 (eq_refl : console_error _ env w1 = (Return tt, w0))).
  destruct (getCachedRates_total env w0 X) as (r & w2 & Hrun & _).
  rewrite (bind_return _ _ _ _ _ _ Hrun).
  destruct r; [done |]. by intros [= <- _].
Qed.

(** C7. No storage fault reaches the caller as an exception. Each getter
    returns, and returns its default when the read is rejected or the
    stored payload is undecodable: [getCachedRates] gives [null],
    [getFavoriteCurrencies] the empty list, [getBaseCurrency] [USD].
    The operations that write return as well, whatever the store does,
    and [getExchangeRates] throws nothing but its own rates-unavailable
    error. *)
Theorem storage_faults_never_propagate env w X (l : list string) c d :
  (∃ r w', getCachedRates X env w = (Return r, w')
           ∧ (read_fails env w (cacheKey X) ∨ undecodable_snapshot w X → r = None))
  ∧ (∃ favorites w', getFavoriteCurrencies env w = (Return favorites, w')
           ∧ (read_fails env w FAVORITES_KEY ∨ undecodable_favorites w →
              favorites = []))
  ∧ (∃ code w', getBaseCurrency env w = (Return code, w')
           ∧ (read_fails env w BASE_CURRENCY_KEY → code = "USD"))
  ∧ returns (cacheRates X d) env w
  ∧ returns (setFavoriteCurrencies l) env w
  ∧ returns (addFavoriteCurrency c) env w
  ∧ returns (removeFavoriteCurrency c) env w
  ∧ returns (toggleFavoriteCurrency c) env w
  ∧ returns (setBaseCurrency c) env w
  ∧ (∀ e w', getExchangeRates X env w = (Throw e, w') →
             e = Error "Unable to fetch exchange rates. Please check your internet connection.").
Proof.
  repeat split.
  - destruct (getItem_rejects env (calls is_read (history w)) (cacheKey X)) eqn:Hr.
    + eexists _, _. split; [by apply getCachedRates_rejected | done].
    + destruct (getCachedRates_accepted env w X Hr) as (w' & Hrun & _).
      eexists _, _. split; [done |].
      intros [Hfail | (text & Hd & Ht & Hp)].
      * unfold read_fails in Hfail. congruence.
      * unfold cached_snapshot. by rewrite Hd, Ht, Hp.
  - destruct (getItem_rejects env (calls is_read (history w)) FAVORITES_KEY) eqn:Hr.
    + eexists _, _. split; [by apply getFavoriteCurrencies_rejected | done].
    + destruct (getFavoriteCurrencies_accepted env w Hr) as (w' & Hrun & _).
      eexists _, _. split; [done |].
      intros [Hfail | (text & Hd & Ht & Hp)].
      * unfold read_fails in Hfail. congruence.
      * unfold stored_favorites. by rewrite Hd, Ht, Hp.
  - destruct (getItem_rejects env (calls is_read (history w)) BASE_CURRENCY_KEY) eqn:Hr.
    + eexists _, _. split; [by apply getBaseCurrency_rejected | done].
    + eexists _, _. split; [by apply getBaseCurrency_accepted |].
      unfold read_fails. congruence.
  - apply cacheRates_returns.
  - apply setFavoriteCurrencies_returns.
  - apply addFavoriteCurrency_returns.
  - apply removeFavoriteCurrency_returns.
  - apply toggleFavoriteCurrency_returns.
  - apply setBaseCurrency_returns.
  - apply getExchangeRates_throws_unavailable.
Qed.

End Faults.

(** ** Beyond the claims: the refresh path *)

Section Refresh.
Context `{JsonFavorites : Json (list string)}.
Context `{JsonSnapshot : Json (option CurrencyData)}.

(** What [cacheRates] leaves in the store: the new text when the write is
    accepted, nothing new when it is rejected. *)
Lemma cacheRates_run env w X d :
  ∃ w', cacheRates X d env w = (Return tt, w')
        ∧ disk w' =
            (if setItem_rejects env (calls is_write (history w)) (cacheKey X)
             then disk w
             else <[cacheKey X := stringify (Some d)]> (disk w))
        ∧ calls is_fetch (history w') = calls is_fetch (history w)
        ∧ calls is_read (history w') = calls is_read (history w)
        ∧ calls is_now (history w') = calls is_now (history w).
Proof.
  unfold cacheRates, try_catch, AsyncStorage_setItem.
  destruct (setItem_rejects _ _ _); by eexists.
Qed.

(** The network step with a working network: the payload, stamped with the
    clock reading, is returned after one fetch and one attempt to cache
    it. *)
Lemma network_step_succeeds env w X p :
  fetch_succeeds env w (ratesUrl X) p →
  ∃ w', getExchangeRates_network X env w = (Return (stamped p (next_clock env w)), w')
        ∧ disk w' =
            (if setItem_rejects env (calls is_write (history w)) (cacheKey X)
             then disk w
             else <[cacheKey X := stringify (Some (stamped p (next_clock env w)))]> (disk w))
        ∧ calls is_fetch (history w') = S (calls is_fetch (history w))
        ∧ calls is_read (history w') = calls is_read (history w)
        ∧ calls is_now (history w') = S (calls is_now (history w)).
Proof.
  intros (r & Hr & Hok & Hbody). unfold next_fetch in Hr.
  unfold getExchangeRates_network.
  rewrite (bind_return _ _ _ _ r (log_call (Fetch (ratesUrl X)) w));
    [| unfold fetch; by rewrite Hr].
  rewrite Hok. change (negb true) with false. cbv iota.
  rewrite (bind_return _ _ _ _ p (log_call (Fetch (ratesUrl X)) w));
    [| unfold response_json; by rewrite Hbody].
  set (w1 := log_call (Fetch (ratesUrl X)) w).
  rewrite (bind_return _ _ _ _ (next_clock env w) (log_call Now w1)); [| done].
  destruct (cacheRates_run env (log_call Now w1) X (stamped p (next_clock env w)))
    as (w' & Hrun & Hd & Hf & Hrd & Hn).
  exists w'. rewrite (bind_return _ _ _ _ _ _ Hrun).
  split; [done |]. split; [exact Hd |]. by rewrite Hf, Hrd, Hn.
Qed.

(** A cache read, whatever the store does: one read, no write, no fetch,
    no clock reading; it yields nothing or the snapshot the store holds,
    and the latter when the read is accepted. *)
Lemma getCachedRates_counts env w X :
  ∃ r w', getCachedRates X env w = (Return r, w')
          ∧ quiet w w'
          ∧ calls is_read (history w') = S (calls is_read (history w))
          ∧ calls is_now (history w') = calls is_now (history w)
          ∧ (r = None ∨ r = cached_snapshot w X)
          ∧ (getItem_rejects env (calls is_read (history w)) (cacheKey X) = false →
             r = cached_snapshot w X).
Proof.
  destruct (getItem_rejects env (calls is_read (history w)) (cacheKey X)) eqn:Hr.
  - eexists _, _. split; [by apply getCachedRates_rejected |].
    split; [done |]. split; [done |]. split; [done |]. split; [by left | done].
  - destruct (getCachedRates_accepted env w X Hr) as (w' & Hrun & Hq & Hrd & Hn).
    exists (cached_snapshot w X), w'. split; [done |].
    split; [done |]. split; [done |]. split; [done |]. split; [by right | done].
Qed.

(** The network step, reached after a cache check that touched nothing. *)
Lemma network_step_after_check env w w1 X p :
  quiet w w1 →
  fetch_succeeds env w (ratesUrl X) p →
  ∃ w', getExchangeRates_network X env w1 = (Return (stamped p (next_clock env w1)), w')
        ∧ disk w' =
            (if setItem_rejects env (calls is_write (history w)) (cacheKey X)
             then disk w
             else <[cacheKey X := stringify (Some (stamped p (next_clock env w1)))]> (disk w))
        ∧ calls is_fetch (history w') = S (calls is_fetch (history w))
        ∧ calls is_read (history w') = calls is_read (history w1)
        ∧ calls is_now (history w') = S (calls is_now (history w1)).
Proof.
  intros (Hd & Hw & Hf) Hnet.
  destruct (network_step_succeeds env w1 X p) as (w' & Hrun & Hd' & Hf' & Hrest).
  { unfold fetch_succeeds, next_fetch in *. by rewrite Hf. }
  exists w'. split; [done |]. rewrite Hd', Hf', Hw, Hd, Hf. done.
Qed.

(** X1. With no snapshot in the store for [X] and a working network,
    [getExchangeRates X] makes one fetch and returns the payload's rates
    and base stamped with the clock reading; the snapshot is written under
    the cache key of [X] when the store accepts the write, and the call
    returns it all the same when the store rejects the write. *)
Theorem getExchangeRates_fetches_without_snapshot env w X p :
  cached_snapshot w X = None →
  fetch_succeeds env w (ratesUrl X) p →
  ∃ w', getExchangeRates X env w = (Return (stamped p (next_clock env w)), w')
        ∧ calls is_fetch (history w') = S (calls is_fetch (history w))
        ∧ disk w' =
            (if setItem_rejects env (calls is_write (history w)) (cacheKey X)
             then disk w
             else <[cacheKey X := stringify (Some (stamped p (next_clock env w)))]> (disk w)).
Proof.
  intros Hnone Hnet.
  destruct (getCachedRates_counts env w X) as (r & w1 & Hrun & Hq & _ & Hn & Hr & _).
  assert (r = None) as -> by (destruct Hr as [-> | ->]; done).
  destruct (network_step_after_check env w w1 X p Hq Hnet) as (w' & Hstep & Hd & Hf & _).
  unfold next_clock in *. rewrite Hn in Hstep, Hd.
  exists w'. split; [| done].
  unfold getExchangeRates, getExchangeRates_try. apply try_catch_return.
  by rewrite (bind_return _ _ _ _ _ _ Hrun).
Qed.

(** X2. A snapshot that is exactly six hours old, or older, is stale: with
    the read accepted and a working network, [getExchangeRates X] fetches
    anew, returns the new snapshot stamped with the second clock reading,
    and writes it over the old one when the store accepts the write. *)
Theorem getExchangeRates_refetches_stale env w X d p :
  cached_snapshot w X = Some d →
  getItem_rejects env (calls is_read (history w)) (cacheKey X) = false →
  (CACHE_DURATION ≤ next_clock env w - timestamp d)%Z →
  fetch_succeeds env w (ratesUrl X) p →
  let now := clock env (S (calls is_now (history w))) in
  ∃ w', getExchangeRates X env w = (Return (stamped p now), w')
        ∧ calls is_fetch (history w') = S (calls is_fetch (history w))
        ∧ disk w' =
            (if setItem_rejects env (calls is_write (history w)) (cacheKey X)
             then disk w
             else <[cacheKey X := stringify (Some (stamped p now))]> (disk w)).
Proof.
  intros Hd Hr Hold Hnet now.
  destruct (getCachedRates_accepted env w X Hr) as (w1 & Hrun & Hq & _ & Hn).
  rewrite Hd in Hrun.
  assert (Hq2 : quiet w (log_call Now w1)).
  { destruct Hq as (Hq1 & Hq2 & Hq3). done. }
  destruct (network_step_after_check env w _ X p Hq2 Hnet) as (w' & Hstep & Hd' & Hf & _).
  assert (Hclock : next_clock env (log_call Now w1) = now).
  { unfold next_clock, now. simpl. by rewrite Hn. }
  rewrite Hclock in Hstep, Hd'.
  exists w'. split; [| done].
  unfold getExchangeRates, getExchangeRates_try. apply try_catch_return.
  rewrite (bind_return _ _ _ _ _ _ Hrun).
  rewrite (bind_return _ _ _ _ _ _ (isCacheValid_run env w1 (timestamp d))).
  unfold next_clock in *. rewrite Hn.
  rewrite bool_decide_eq_false_2 by lia. done.
Qed.

(** The [try] block on a fresh snapshot. *)
Lemma getExchangeRates_try_hit env w X d :
  cached_snapshot w X = Some d →
  getItem_rejects env (calls is_read (history w)) (cacheKey X) = false →
  (next_clock env w - timestamp d < CACHE_DURATION)%Z →
  ∃ w', getExchangeRates_try X env w = (Return d, w') ∧ quiet w w'.
Proof.
  intros Hd Hr Hfresh.
  destruct (getCachedRates_accepted env w X Hr) as (w1 & Hrun & Hq & _ & Hn).
  rewrite Hd in Hrun. exists (log_call Now w1). split.
  - unfold getExchangeRates_try.
    rewrite (bind_return _ _ _ _ _ _ Hrun).
    rewrite (bind_return _ _ _ _ _ _ (isCacheValid_run env w1 (timestamp d))).
    unfold next_clock in *. rewrite Hn. by rewrite bool_decide_eq_true_2.
  - destruct Hq as (Hq1 & Hq2 & Hq3). done.
Qed.

(** X3. A fetched snapshot serves the next call: after a call that found
    no snapshot and fetched one, with the write accepted and JSON giving
    the snapshot back, a second call whose read is accepted and whose
    clock reading is less than six hours after the stamp returns the same
    snapshot without calling the network again. *)
Theorem getExchangeRates_second_call_served_from_cache env w X p :
  let stamp := next_clock env w in
  cached_snapshot w X = None →
  fetch_succeeds env w (ratesUrl X) p →
  setItem_rejects env (calls is_write (history w)) (cacheKey X) = false →
  snapshot_round_trips (stamped p stamp) →
  getItem_rejects env (S (calls is_read (history w))) (cacheKey X) = false →
  (clock env (S (calls is_now (history w))) - stamp < CACHE_DURATION)%Z →
  ∃ w1 w2, getExchangeRates X env w = (Return (stamped p stamp), w1)
           ∧ getExchangeRates X env w1 = (Return (stamped p stamp), w2)
           ∧ calls is_fetch (history w1) = S (calls is_fetch (history w))
           ∧ calls is_fetch (history w2) = calls is_fetch (history w1)
           ∧ disk w2 = disk w1.
Proof.
  intros stamp Hnone Hnet Hw [Ht Hp] Hr Hclock.
  destruct (getCachedRates_counts env w X) as (r & w0 & Hrun & Hq & Hrd & Hn & Hres & _).
  assert (r = None) as -> by (destruct Hres as [-> | ->]; done).
  destruct (network_step_after_check env w w0 X p Hq Hnet)
    as (w1 & Hstep & Hd & Hf & Hrd1 & Hn1).
  unfold next_clock in Hstep, Hd, Hn1. rewrite Hn in Hstep, Hd, Hn1.
  fold (next_clock env w) in Hstep, Hd. fold stamp in Hstep, Hd.
  rewrite Hw in Hd. rewrite Hrd in Hrd1.
  assert (Hfirst : getExchangeRates X env w = (Return (stamped p stamp), w1)).
  { unfold getExchangeRates, getExchangeRates_try. apply try_catch_return.
    by rewrite (bind_return _ _ _ _ _ _ Hrun). }
  assert (Hheld : cached_snapshot w1 X = Some (stamped p stamp)).
  { unfold cached_snapshot. rewrite Hd, lookup_insert_eq, Ht, Hp. done. }
  destruct (getExchangeRates_try_hit env w1 X (stamped p stamp) Hheld)
    as (w2 & Hsecond & Hq2 & Hq3 & Hq4).
  - by rewrite Hrd1.
  - unfold next_clock. by rewrite Hn1.
  - exists w1, w2. split; [done |]. split.
    + unfold getExchangeRates. by apply try_catch_return.
    + done.
Qed.


End Refresh.

(** ** Beyond the claims: which keys an operation can change *)

Section Frames.
Context `{JsonFavorites : Json (list string)}.
Context `{JsonSnapshot : Json (option CurrencyData)}.

Lemma touches_only_refl key w : touches_only key w w.
Proof. by intros k _. Qed.

Lemma touches_only_trans key w1 w2 w3 :
  touches_only key w1 w2 → touches_only key w2 w3 → touches_only key w1 w3.
Proof. intros H12 H23 k Hk. by rewrite H23, H12. Qed.

Lemma frames_mret {A} key (a : A) : frames key (mret a).
Proof. intros env w. apply touches_only_refl. Qed.

Lemma frames_throw {A} key e : frames key (throw (A := A) e).
Proof. intros env w. apply touches_only_refl. Qed.

Lemma frames_bind {A B} key (m : Async A) (k : A → Async B) :
  frames key m → (∀ a, frames key (k a)) → frames key (m ≫= k).
Proof.
  intros Hm Hk env w. specialize (Hm env w).
  unfold mbind, Async_bind, bind.
  destruct (m env w) as [[a | e] w1]; simpl in *; [| done].
  eapply touches_only_trans; [done | apply Hk].
Qed.

Lemma frames_try_catch {A} key (m : Async A) h :
  frames key m → (∀ e, frames key (h e)) → frames key (try_catch m h).
Proof.
  intros Hm Hh env w. specialize (Hm env w). unfold try_catch.
  destruct (m env w) as [[a | e] w1]; simpl in *; [done |].
  eapply touches_only_trans; [done | apply Hh].
Qed.

Lemma frames_getItem key k : frames key (AsyncStorage_getItem k).
Proof.
  intros env w. unfold AsyncStorage_getItem.
  destruct (getItem_rejects _ _ _); intros k' _; reflexivity.
Qed.

Lemma frames_setItem key value : frames key (AsyncStorage_setItem key value).
Proof.
  intros env w. unfold AsyncStorage_setItem.
  destruct (setItem_rejects _ _ _); [intros k' _; reflexivity |].
  intros k Hk. simpl. by rewrite lookup_insert_ne.
Qed.

Lemma frames_console_error key label : frames key (console_error label).
Proof. intros env w k' _. reflexivity. Qed.

Lemma frames_Date_now key : frames key Date_now.
Proof. intros env w k' _. reflexivity. Qed.

Lemma frames_fetch key url : frames key (fetch url).
Proof.
  intros env w. unfold fetch.
  destruct (fetch_response _ _ _); intros k' _; reflexivity.
Qed.

Lemma frames_JSON_parse {A} `{Json A} key text : frames key (JSON_parse (A := A) text).
Proof. unfold JSON_parse. destruct (parse text); [apply frames_mret | apply frames_throw]. Qed.

Lemma frames_getCachedRates key X : frames key (getCachedRates X).
Proof.
  apply frames_try_catch.
  - apply frames_bind; [apply frames_getItem |].
    intros [text |]; [| apply frames_mret].
    destruct (string_truthy text); [apply frames_JSON_parse | apply frames_mret].
  - intros e. apply frames_bind; [apply frames_console_error |].
    intros _. apply frames_mret.
Qed.

Lemma frames_cacheRates X d : frames (cacheKey X) (cacheRates X d).
Proof.
  apply frames_try_catch; [apply frames_setItem |].
  intros e. apply frames_console_error.
Qed.

Lemma frames_getExchangeRates X : frames (cacheKey X) (getExchangeRates X).
Proof.
  apply frames_try_catch.
  - apply frames_bind; [apply frames_getCachedRates |]. intros cached.
    apply frames_bind.
    { destruct cached; [| apply frames_mret].
      apply frames_bind; [apply frames_Date_now | intros; apply frames_mret]. }
    intros valid.
    assert (Hnet : frames (cacheKey X) (getExchangeRates_network X)).
    { apply frames_bind; [apply frames_fetch |]. intros r.
      destruct (negb (ok r)); [apply frames_throw |].
      apply frames_bind.
      { unfold response_json. destruct (body r); [apply frames_mret | apply frames_throw]. }
      intros p. apply frames_bind; [apply frames_Date_now |]. intros now.
      apply frames_bind; [apply frames_cacheRates |]. intros _. apply frames_mret. }
    destruct cached, valid; first [apply frames_mret | exact Hnet].
  - intros e. apply frames_bind; [apply frames_console_error |]. intros _.
    apply frames_bind; [apply frames_getCachedRates |].
    intros [d |]; [apply frames_mret | apply frames_throw].
Qed.

Lemma frames_getFavoriteCurrencies key : frames key getFavoriteCurrencies.
Proof.
  apply frames_try_catch.
  - apply frames_bind; [apply frames_getItem |].
    intros [text |]; [| apply frames_mret].
    destruct (string_truthy text); [apply frames_JSON_parse | apply frames_mret].
  - intros e. apply frames_bind; [apply frames_console_error |].
    intros _. apply frames_mret.
Qed.

Lemma frames_setFavoriteCurrencies l : frames FAVORITES_KEY (setFavoriteCurrencies l).
Proof.
  apply frames_try_catch; [apply frames_setItem |].
  intros e. apply frames_console_error.
Qed.

Lemma frames_addFavoriteCurrency c : frames FAVORITES_KEY (addFavoriteCurrency c).
Proof.
  apply frames_bind; [apply frames_getFavoriteCurrencies |]. intros l.
  destruct (negb (includes l c)); [apply frames_setFavoriteCurrencies | apply frames_mret].
Qed.

Lemma frames_removeFavoriteCurrency c : frames FAVORITES_KEY (removeFavoriteCurrency c).
Proof.
  apply frames_bind; [apply frames_getFavoriteCurrencies |]. intros l.
  apply frames_setFavoriteCurrencies.
Qed.

Lemma frames_toggleFavoriteCurrency c : frames FAVORITES_KEY (toggleFavoriteCurrency c).
Proof.
  apply frames_bind; [apply frames_getFavoriteCurrencies |]. intros l.
  destruct (includes l c).
  - apply frames_bind; [apply frames_removeFavoriteCurrency | intros; apply frames_mret].
  - apply frames_bind; [apply frames_addFavoriteCurrency | intros; apply frames_mret].
Qed.

Lemma frames_setBaseCurrency c : frames BASE_CURRENCY_KEY (setBaseCurrency c).
Proof.
  apply frames_try_catch; [apply frames_setItem |].
  intros e. apply frames_console_error.
Qed.

(** The three kinds of key never coincide. *)
Lemma cacheKey_inj X Y : cacheKey X = cacheKey Y → X = Y.
Proof.
  unfold cacheKey. intros Heq.
  apply (String.app_inj CACHE_KEY) in Heq. by apply (String.app_inj "_") in Heq.
Qed.

Lemma cacheKey_not_favorites X : FAVORITES_KEY ≠ cacheKey X.
Proof. done. Qed.

Lemma cacheKey_not_base X : BASE_CURRENCY_KEY ≠ cacheKey X.
Proof. done. Qed.

(** X5. Fetching rates for [X] can change one key of the store only, the
    cache key of [X]: whatever the environment does, the favourites, the
    base currency and the snapshots cached for every other base currency
    are after [getExchangeRates X] what they were before. *)
Theorem getExchangeRates_changes_only_its_cache_entry env w X :
  let w' := (getExchangeRates X env w).2 in
  (∀ key, key ≠ cacheKey X → disk w' !! key = disk w !! key)
  ∧ stored_favorites w' = stored_favorites w
  ∧ disk w' !! BASE_CURRENCY_KEY = disk w !! BASE_CURRENCY_KEY
  ∧ (∀ Y, Y ≠ X → cached_snapshot w' Y = cached_snapshot w Y).
Proof.
  intros w'. pose proof (frames_getExchangeRates X env w) as Hframe.
  fold w' in Hframe. split; [exact Hframe |]. split; [| split].
  - unfold stored_favorites. by rewrite (Hframe _ (cacheKey_not_favorites X)).
  - apply Hframe, cacheKey_not_base.
  - intros Y Hne. unfold cached_snapshot. rewrite Hframe; [done |].
    intros Heq. by apply cacheKey_inj in Heq.
Qed.

(** X6. The preference operations never touch the rate cache, and each
    kind of preference leaves the other alone: whatever the environment
    does, adding, removing or toggling a favourite and overwriting the
    favourites change no key but the favourites key, and
    [setBaseCurrency] changes no key but the base-currency key. *)
Theorem preferences_change_only_their_own_key env w c l :
  let favorites_only w' :=
    (∀ key, key ≠ FAVORITES_KEY → disk w' !! key = disk w !! key)
    ∧ disk w' !! BASE_CURRENCY_KEY = disk w !! BASE_CURRENCY_KEY
    ∧ (∀ X, cached_snapshot w' X = cached_snapshot w X) in
  let base_only w' :=
    (∀ key, key ≠ BASE_CURRENCY_KEY → disk w' !! key = disk w !! key)
    ∧ stored_favorites w' = stored_favorites w
    ∧ (∀ X, cached_snapshot w' X = cached_snapshot w X) in
  favorites_only (addFavoriteCurrency c env w).2
  ∧ favorites_only (removeFavoriteCurrency c env w).2
  ∧ favorites_only (toggleFavoriteCurrency c env w).2
  ∧ favorites_only (setFavoriteCurrencies l env w).2
  ∧ base_only (setBaseCurrency c env w).2.
Proof.
  intros favorites_only base_only.
  assert (Hfav : ∀ w', touches_only FAVORITES_KEY w w' → favorites_only w').
  { intros w' Hframe. split; [exact Hframe |]. split; [by apply Hframe |].
    intros X. unfold cached_snapshot. rewrite Hframe; [done |].
    symmetry. apply cacheKey_not_favorites. }
  split; [apply Hfav, frames_addFavoriteCurrency |].
  split; [apply Hfav, frames_removeFavoriteCurrency |].
  split; [apply Hfav, frames_toggleFavoriteCurrency |].
  split; [apply Hfav, frames_setFavoriteCurrencies |].
  pose proof (frames_setBaseCurrency c env w) as Hframe.
  split; [exact Hframe |]. split.
  - unfold stored_favorites. by rewrite Hframe.
  - intros X. unfold cached_snapshot. rewrite Hframe; [done |].
    symmetry. apply cacheKey_not_base.
Qed.

End Frames.

(** ** Beyond the claims: the store misbehaving, and operations in a row *)

Section Preferences.
Context `{JsonFavorites : Json (list string)}.
Context `{JsonSnapshot : Json (option CurrencyData)}.

Lemma setFavoriteCurrencies_rejected env w l :
  setItem_rejects env (calls is_write (history w)) FAVORITES_KEY = true →
  setFavoriteCurrencies l env w =
    (Return tt,
     log_call (ConsoleError "Error saving favorite currencies:")
       (log_call (SetItem FAVORITES_KEY (stringify l)) w)).
Proof.
  intros Hr. unfold setFavoriteCurrencies.
  by rewrite (try_catch_throw _ _ _ _ _ _ (setItem_rejected _ _ _ _ Hr)).
Qed.

Lemma setBaseCurrency_rejected env w c :
  setItem_rejects env (calls is_write (history w)) BASE_CURRENCY_KEY = true →
  setBaseCurrency c env w =
    (Return tt,
     log_call (ConsoleError "Error saving base currency:")
       (log_call (SetItem BASE_CURRENCY_KEY c) w)).
Proof.
  intros Hr. unfold setBaseCurrency.
  by rewrite (try_catch_throw _ _ _ _ _ _ (setItem_rejected _ _ _ _ Hr)).
Qed.

(** X7. A rejected write is silent. When the store rejects the write,
    [setFavoriteCurrencies] and [setBaseCurrency] still return normally,
    and the getter that follows (its read accepted) returns what the store
    held before, not what was passed in. *)
Theorem rejected_write_keeps_previous_value env w l c :
  (setItem_rejects env (calls is_write (history w)) FAVORITES_KEY = true →
   getItem_rejects env (calls is_read (history w)) FAVORITES_KEY = false →
   ∃ w1 w2, setFavoriteCurrencies l env w = (Return tt, w1)
            ∧ disk w1 = disk w
            ∧ getFavoriteCurrencies env w1 = (Return (stored_favorites w), w2))
  ∧ (setItem_rejects env (calls is_write (history w)) BASE_CURRENCY_KEY = true →
     getItem_rejects env (calls is_read (history w)) BASE_CURRENCY_KEY = false →
     ∃ w1 w2 previous,
       setBaseCurrency c env w = (Return tt, w1)
       ∧ disk w1 = disk w
       ∧ getBaseCurrency env w = (Return previous, log_call (GetItem BASE_CURRENCY_KEY) w)
       ∧ getBaseCurrency env w1 = (Return previous, w2)).
Proof.
  split.
  - intros Hw Hr.
    set (w1 := log_call (ConsoleError "Error saving favorite currencies:")
                 (log_call (SetItem FAVORITES_KEY (stringify l)) w)).
    destruct (getFavoriteCurrencies_accepted env w1 Hr) as (w2 & Hget & _).
    exists w1, w2. split; [by apply setFavoriteCurrencies_rejected |].
    split; [done | exact Hget].
  - intros Hw Hr.
    set (w1 := log_call (ConsoleError "Error saving base currency:")
                 (log_call (SetItem BASE_CURRENCY_KEY c) w)).
    eexists w1, _, _. split; [by apply setBaseCurrency_rejected |].
    split; [done |]. split; [by apply getBaseCurrency_accepted |].
    by rewrite (getBaseCurrency_accepted env w1 Hr).
Qed.

(** A mutator whose read is accepted and whose write is rejected. *)
Lemma removeFavoriteCurrency_write_rejected env w c :
  getItem_rejects env (calls is_read (history w)) FAVORITES_KEY = false →
  setItem_rejects env (calls is_write (history w)) FAVORITES_KEY = true →
  ∃ w', removeFavoriteCurrency c env w = (Return tt, w') ∧ disk w' = disk w.
Proof.
  intros Hr Hw.
  destruct (getFavoriteCurrencies_accepted env w Hr) as (w1 & Hget & (Hd & Hwr & _) & _).
  rewrite <- Hwr in Hw.
  unfold removeFavoriteCurrency. rewrite (bind_return _ _ _ _ _ _ Hget).
  rewrite (setFavoriteCurrencies_rejected env w1 _ Hw). by eexists.
Qed.

Lemma addFavoriteCurrency_write_rejected env w c :
  getItem_rejects env (calls is_read (history w)) FAVORITES_KEY = false →
  setItem_rejects env (calls is_write (history w)) FAVORITES_KEY = true →
  ∃ w', addFavoriteCurrency c env w = (Return tt, w') ∧ disk w' = disk w.
Proof.
  intros Hr Hw.
  destruct (getFavoriteCurrencies_accepted env w Hr) as (w1 & Hget & (Hd & Hwr & _) & _).
  rewrite <- Hwr in Hw.
  unfold addFavoriteCurrency. rewrite (bind_return _ _ _ _ _ _ Hget).
  destruct (negb (includes (stored_favorites w) c)); [| by eexists].
  rewrite (setFavoriteCurrencies_rejected env w1 _ Hw). by eexists.
Qed.

(** X8. [toggleFavoriteCurrency] reports the membership it meant to
    leave, not the one it left: when the store accepts the two reads but
    rejects the write, the call returns [true] for a code that was not a
    favourite (and [false] for one that was) although the stored
    favourites are unchanged. *)
Theorem toggleFavoriteCurrency_write_rejected env w c :
  getItem_rejects env (calls is_read (history w)) FAVORITES_KEY = false →
  getItem_rejects env (S (calls is_read (history w))) FAVORITES_KEY = false →
  setItem_rejects env (calls is_write (history w)) FAVORITES_KEY = true →
  ∃ w', toggleFavoriteCurrency c env w =
          (Return (negb (includes (stored_favorites w) c)), w')
        ∧ disk w' = disk w
        ∧ includes (stored_favorites w') c = includes (stored_favorites w) c.
Proof.
  intros Hr1 Hr2 Hw.
  destruct (getFavoriteCurrencies_accepted env w Hr1)
    as (w1 & Hget1 & (Hd1 & Hwr1 & _) & Hrd1).
  rewrite <- Hrd1 in Hr2. rewrite <- Hwr1 in Hw.
  unfold toggleFavoriteCurrency. rewrite (bind_return _ _ _ _ _ _ Hget1).
  destruct (includes (stored_favorites w) c) eqn:Hin.
  - destruct (removeFavoriteCurrency_write_rejected env w1 c Hr2 Hw) as (w' & Hrun & Hd).
    rewrite (bind_return _ _ _ _ _ _ Hrun).
    exists w'. split; [done |]. rewrite Hd, Hd1. split; [done |].
    rewrite (stored_favorites_quiet w w'); [done | by rewrite Hd, Hd1].
  - destruct (addFavoriteCurrency_write_rejected env w1 c Hr2 Hw) as (w' & Hrun & Hd).
    rewrite (bind_return _ _ _ _ _ _ Hrun).
    exists w'. split; [done |]. rewrite Hd, Hd1. split; [done |].
    rewrite (stored_favorites_quiet w w'); [done | by rewrite Hd, Hd1].
Qed.

(** X9. A rejected read costs the favourites. [getFavoriteCurrencies]
    answers a rejected read with the empty list, and the mutators write
    back what they computed from it: when the read is rejected and the
    write accepted, [addFavoriteCurrency c] leaves the store holding [c]
    alone and [removeFavoriteCurrency c] leaves it holding nothing,
    whatever it held before. *)
Theorem rejected_read_overwrites_favorites env w c :
  read_fails env w FAVORITES_KEY →
  setItem_rejects env (calls is_write (history w)) FAVORITES_KEY = false →
  (round_trips [c] →
   ∃ w', addFavoriteCurrency c env w = (Return tt, w') ∧ stored_favorites w' = [c])
  ∧ (round_trips [] →
     ∃ w', removeFavoriteCurrency c env w = (Return tt, w') ∧ stored_favorites w' = []).
Proof.
  intros Hr Hw.
  pose proof (getFavoriteCurrencies_rejected env w Hr) as Hget.
  set (w1 := log_call (ConsoleError "Error reading favorite currencies:")
               (log_call (GetItem FAVORITES_KEY) w)) in Hget.
  assert (Hw1 : setItem_rejects env (calls is_write (history w1)) FAVORITES_KEY = false)
    by exact Hw.
  split; intros Hrt.
  - unfold addFavoriteCurrency. rewrite (bind_return _ _ _ _ _ _ Hget).
    change (negb (includes [] c)) with true. cbv iota.
    rewrite (setFavoriteCurrencies_accepted env w1 _ Hw1).
    eexists. split; [done |].
    apply stored_favorites_written; [apply lookup_insert_eq | done].
  - unfold removeFavoriteCurrency. rewrite (bind_return _ _ _ _ _ _ Hget).
    rewrite (setFavoriteCurrencies_accepted env w1 _ Hw1).
    eexists. split; [done |].
    apply stored_favorites_written; [apply lookup_insert_eq | done].
Qed.

(** X10. The favourites operations in a row, on an available store whose
    JSON gives the written sequences back: adding a code twice is adding
    it once (the second call writes nothing); removing it twice is
    removing it once; removing a code just added to a sequence that did
    not hold it gives the sequence back. *)
Theorem favorites_operations_compose env w c :
  storage_available env →
  round_trips (stored_favorites w ++ [c]) →
  round_trips (filter (λ fav, fav ≠ c) (stored_favorites w)) →
  (∃ w1 w2, addFavoriteCurrency c env w = (Return tt, w1)
            ∧ addFavoriteCurrency c env w1 = (Return tt, w2)
            ∧ disk w2 = disk w1)
  ∧ (∃ w1 w2, removeFavoriteCurrency c env w = (Return tt, w1)
              ∧ removeFavoriteCurrency c env w1 = (Return tt, w2)
              ∧ stored_favorites w2 = stored_favorites w1)
  ∧ (c ∉ stored_favorites w →
     ∃ w1 w2, addFavoriteCurrency c env w = (Return tt, w1)
              ∧ removeFavoriteCurrency c env w1 = (Return tt, w2)
              ∧ stored_favorites w2 = stored_favorites w).
Proof.
  intros Ha Hadd Hrm. split; [| split].
  - destruct (favorites_after_add env w c Ha Hadd) as (w1 & Hrun1 & _ & Hl1).
    assert (Hin : includes (stored_favorites w1) c = true).
    { rewrite Hl1. destruct (includes (stored_favorites w) c) eqn:Hc; [done |].
      apply includes_true. set_solver. }
    destruct (addFavoriteCurrency_available env Ha w1 c) as (w2 & Hrun2 & Hd).
    rewrite Hin in Hd. by exists w1, w2.
  - destruct (favorites_after_remove env w c Ha Hrm) as (w1 & Hrun1 & Hl1).
    destruct (favorites_after_remove env w1 c Ha) as (w2 & Hrun2 & Hl2).
    { rewrite Hl1, (filter_absent _ _ (filter_excludes _ c)). exact Hrm. }
    exists w1, w2. split; [done |]. split; [done |].
    rewrite Hl2, Hl1. apply filter_absent, filter_excludes.
  - intros Hc.
    destruct (favorites_after_add env w c Ha Hadd) as (w1 & Hrun1 & _ & Hl1).
    apply includes_false in Hc as Hin. rewrite Hin in Hl1.
    destruct (favorites_after_remove env w1 c Ha) as (w2 & Hrun2 & Hl2).
    { rewrite Hl1, filter_appended. exact Hrm. }
    exists w1, w2. split; [done |]. split; [done |].
    rewrite Hl2, Hl1, filter_appended. by apply filter_absent.
Qed.

(** X11. The base currency read from the store is never the empty string:
    whatever the store holds and whether or not the read is rejected,
    [getBaseCurrency] returns a non-empty code and leaves the store as it
    was. *)
Theorem getBaseCurrency_never_empty env w :
  ∃ code w', getBaseCurrency env w = (Return code, w')
             ∧ code ≠ ""
             ∧ disk w' = disk w.
Proof.
  destruct (getItem_rejects env (calls is_read (history w)) BASE_CURRENCY_KEY) eqn:Hr.
  - eexists _, _. split; [by apply getBaseCurrency_rejected | done].
  - eexists _, _. split; [by apply getBaseCurrency_accepted |]. split; [| done].
    destruct (disk w !! BASE_CURRENCY_KEY) as [s |]; [| done].
    destruct (string_truthy s) eqn:Hs; [| done]. by apply string_truthy_nonempty.
Qed.

(** X12. What [cacheRates] writes, [getCachedRates] reads back: when the
    store accepts the write and the read and JSON gives the snapshot
    back, [getCachedRates X] after [cacheRates X d] returns [d], and the
    snapshot cached for any other base currency is untouched. *)
Theorem cacheRates_then_getCachedRates env w X d :
  setItem_rejects env (calls is_write (history w)) (cacheKey X) = false →
  getItem_rejects env (calls is_read (history w)) (cacheKey X) = false →
  snapshot_round_trips d →
  ∃ w1 w2, cacheRates X d env w = (Return tt, w1)
           ∧ getCachedRates X env w1 = (Return (Some d), w2)
           ∧ (∀ Y, Y ≠ X → cached_snapshot w1 Y = cached_snapshot w Y).
Proof.
  intros Hw Hr [Ht Hp].
  set (w1 := {| disk := <[cacheKey X := stringify (Some d)]> (disk w);
                history := SetItem (cacheKey X) (stringify (Some d)) :: history w |}).
  assert (Hrun : cacheRates X d env w = (Return tt, w1)).
  { unfold cacheRates. apply try_catch_return. by apply setItem_accepted. }
  destruct (getCachedRates_accepted env w1 X Hr) as (w2 & Hget & _).
  exists w1, w2. split; [done |]. split.
  - rewrite Hget. unfold cached_snapshot. simpl.
    by rewrite lookup_insert_eq, Ht, Hp.
  - intros Y Hne. unfold cached_snapshot. simpl.
    rewrite lookup_insert_ne; [done |].
    intros Heq. apply Hne. symmetry. revert Heq. unfold cacheKey.
    intros Heq. apply (String.app_inj CACHE_KEY) in Heq.
    by apply (String.app_inj "_") in Heq.
Qed.

End Preferences.

(** ** Beyond the claims: conversion and symbols *)

Section ConversionMore.

(** X13. A stored rate that is falsy ([0], [-0] or [NaN]) converts like a
    missing one: with differing codes, and a target that is not the name
    of a member of [Object.prototype], the result is the product of the
    amount and [+0], the same as on the table without the entry, so a
    [NaN] rate does not reach the result of a finite amount. *)
Theorem convertCurrency_falsy_rate
    (a : number) (fromCurrency toCurrency : string) (table : ExchangeRates) rate :
  fromCurrency ≠ toCurrency →
  is_inherited toCurrency = false →
  table !! toCurrency = Some rate →
  number_truthy rate = false →
  convertCurrency a fromCurrency toCurrency table
    = convertCurrency a fromCurrency toCurrency (delete toCurrency table)
  ∧ convertCurrency a fromCurrency toCurrency table = js_mul a pos_zero
  ∧ (is_finite a = true →
     is_zero (convertCurrency a fromCurrency toCurrency table) = true).
Proof.
  intros Hne Hnot Hrate Hfalsy. unfold convertCurrency.
  rewrite bool_decide_eq_false_2 by done.
  rewrite (get_property_own _ _ _ Hrate), Hfalsy.
  rewrite (get_property_undefined (delete toCurrency table) toCurrency);
    [| apply lookup_delete_eq | done].
  split; [done |]. split; [done |]. intros Hfin.
  unfold pos_zero. by rewrite js_mul_finite_zero.
Qed.

(** X14. The source currency is only compared with the target: for a
    target different from both, converting from one source or from
    another gives the same result, and the source's own entry in the
    table plays no part.  (No cross rate is computed.) *)
Theorem convertCurrency_ignores_source
    (a : number) (from1 from2 toCurrency : string) (table : ExchangeRates) rate :
  from1 ≠ toCurrency →
  from2 ≠ toCurrency →
  convertCurrency a from1 toCurrency table = convertCurrency a from2 toCurrency table
  ∧ convertCurrency a from1 toCurrency (<[from1 := rate]> table)
    = convertCurrency a from1 toCurrency table.
Proof.
  intros H1 H2. unfold convertCurrency, get_property.
  rewrite !bool_decide_eq_false_2 by done.
  by rewrite lookup_insert_ne.
Qed.

Lemma popular_have_symbols :
  Forall (λ c, ∃ glyph, symbols !! c = Some glyph ∧ string_truthy glyph = true)
    POPULAR_CURRENCIES.
Proof. repeat constructor; by eexists. Qed.

(** X15. [getCurrencySymbol] returns the table's glyph for each of the
    twenty popular currencies; for a code outside its table it returns the
    code itself, unless the code names a member of [Object.prototype], in
    which case it returns that member and not a string; and the string it
    returns for a non-empty code is never empty. *)
Theorem getCurrencySymbol_fallback_and_coverage :
  (∀ c, symbols !! c = None → is_inherited c = false → getCurrencySymbol c = Text c)
  ∧ (∀ c, symbols !! c = None → is_inherited c = true → getCurrencySymbol c = Member)
  ∧ (∀ c, c ∈ POPULAR_CURRENCIES →
          ∃ glyph, symbols !! c = Some glyph
                   ∧ getCurrencySymbol c = Text glyph ∧ glyph ≠ "")
  ∧ (∀ c, c ≠ "" → getCurrencySymbol c ≠ Text "").
Proof.
  split; [| split; [| split]].
  - intros c Hc Hnot. unfold getCurrencySymbol.
    by rewrite (get_property_undefined _ _ Hc Hnot).
  - intros c Hc Hin. unfold getCurrencySymbol.
    by rewrite (get_property_inherited _ _ Hc Hin).
  - intros c Hc.
    pose proof (proj1 (Forall_forall _ _) popular_have_symbols c Hc)
      as (glyph & Hg & Ht).
    exists glyph. split; [done |].
    unfold getCurrencySymbol. rewrite (get_property_own _ _ _ Hg), Ht.
    split; [done |]. by apply string_truthy_nonempty.
  - intros c Hc. unfold getCurrencySymbol, get_property.
    destruct (symbols !! c) as [glyph |].
    + destruct (string_truthy glyph) eqn:Ht; [| congruence].
      apply string_truthy_nonempty in Ht. congruence.
    + destruct (is_inherited c); [done | congruence].
Qed.

End ConversionMore.

(** ** Beyond the claims: the screen component *)

Section Screen.
Context `{JsonFavorites : Json (list string)}.
Context `{JsonSnapshot : Json (option CurrencyData)}.
Import CurrencyConverter.

Lemma strip_all_numeric text : all_numeric (strip_non_numeric text) = true.
Proof.
  induction text as [|c text IH]; [done |]. simpl.
  destruct (numeric_char c) eqn:Hc; [| done]. simpl. by rewrite Hc.
Qed.

Lemma strip_numeric text : all_numeric text = true → strip_non_numeric text = text.
Proof.
  induction text as [|c text IH]; [done |]. simpl.
  intros [Hc Hrest]%andb_true_iff. rewrite Hc. by rewrite IH.
Qed.

Lemma split_dot_length s : length (split_dot s) = S (dots s).
Proof.
  induction s as [|c s IH]; [done |]. simpl.
  destruct (Ascii.eqb c "."); simpl; [by rewrite IH |].
  destruct (split_dot s); simpl in *; [done | exact IH].
Qed.

Lemma handleAmountChange_amount text st :
  amount (handleAmountChange text st) =
    if (dots (strip_non_numeric text) <=? 1)%nat then strip_non_numeric text
    else amount st.
Proof.
  unfold handleAmountChange. rewrite split_dot_length.
  change (S (dots (strip_non_numeric text)) <=? 2)%nat
    with (dots (strip_non_numeric text) <=? 1)%nat.
  by destruct (dots (strip_non_numeric text) <=? 1)%nat.
Qed.

(** X16. The amount field only ever holds digits and at most one dot:
    whatever text is typed or pasted, [handleAmountChange] keeps a
    well-formed amount well-formed, so the amount is well-formed after
    any sequence of edits from the initial state; the other cells of the
    state are never touched. *)
Theorem handleAmountChange_keeps_amount_well_formed (texts : list string) (st : State) :
  amount_ok (amount st) = true →
  let st' := foldl (λ s text, handleAmountChange text s) st texts in
  amount_ok (amount st') = true
  ∧ baseCurrency st' = baseCurrency st
  ∧ currencyData st' = currencyData st
  ∧ loading st' = loading st
  ∧ error st' = error st
  ∧ favoriteCurrencies st' = favoriteCurrencies st.
Proof.
  revert st. induction texts as [|text texts IH]; intros st Hok; [done |].
  simpl. specialize (IH (handleAmountChange text st)).
  assert (Hstep : amount_ok (amount (handleAmountChange text st)) = true).
  { rewrite handleAmountChange_amount.
    destruct (dots (strip_non_numeric text) <=? 1)%nat eqn:Hd; [| done].
    unfold amount_ok. by rewrite strip_all_numeric, Hd. }
  destruct (IH Hstep) as (H1 & H2 & H3 & H4 & H5 & H6).
  split; [done |]. rewrite H2, H3, H4, H5, H6.
  unfold handleAmountChange.
  by destruct (length (split_dot (strip_non_numeric text)) <=? 2)%nat.
Qed.

Lemma dots_strip text : dots (strip_non_numeric text) = dots text.
Proof.
  induction text as [|c text IH]; [done |]. simpl.
  destruct (Ascii.eqb c ".") eqn:Hdot.
  - apply Ascii.eqb_eq in Hdot as ->. simpl. by rewrite IH.
  - destruct (numeric_char c); simpl; by rewrite ?Hdot, IH.
Qed.

(** X17. [handleAmountChange] takes a well-formed text as it is, and
    ignores an edit that would leave two dots or more: the state is then
    exactly what it was, whatever else the text holds. *)
Theorem handleAmountChange_accepts_and_rejects (text : string) (st : State) :
  (amount_ok text = true → amount (handleAmountChange text st) = text)
  ∧ ((2 ≤ dots text)%nat → handleAmountChange text st = st).
Proof.
  split.
  - intros [Hnum Hdots]%andb_true_iff.
    rewrite handleAmountChange_amount, (strip_numeric _ Hnum). by rewrite Hdots.
  - intros Hd. unfold handleAmountChange.
    rewrite split_dot_length, dots_strip.
    destruct (S (dots text) <=? 2)%nat eqn:Hle; [| done].
    apply Nat.leb_le in Hle. lia.
Qed.

Section Handlers.
Variable platform_message : Exn → string.

(** X18. [loadExchangeRates] always finishes with the loading flag
    cleared.  With an empty base currency it does nothing at all.
    Otherwise: when the service returns a snapshot, the snapshot becomes
    the rate data and the error is cleared; when the service throws, the
    error becomes the rates-unavailable message and the rate data stay
    what they were.  The amount, the base currency and the favourites are
    never changed. *)
Theorem loadExchangeRates_outcome env w (st : State) :
  (baseCurrency st = "" →
   loadExchangeRates platform_message st env w = (Return st, w))
  ∧ (baseCurrency st ≠ "" →
     ∃ st' w', loadExchangeRates platform_message st env w = (Return st', w')
            ∧ disk w' = disk (getExchangeRates (baseCurrency st) env w).2
            ∧ loading st' = false
            ∧ match (getExchangeRates (baseCurrency st) env w).1 with
              | Return data => currencyData st' = Some data ∧ error st' = None
              | Throw _ =>
                  currencyData st' = currencyData st
                  ∧ error st' =
                      Some "Unable to fetch exchange rates. Please check your internet connection."
              end
            ∧ amount st' = amount st
            ∧ baseCurrency st' = baseCurrency st
            ∧ favoriteCurrencies st' = favoriteCurrencies st).
Proof.
  split.
  - intros Hempty. unfold loadExchangeRates. by rewrite Hempty.
  - intros Hbase%string_truthy_nonempty. unfold loadExchangeRates.
    rewrite Hbase. change (negb true) with false. cbv iota.
    change (baseCurrency (setError None (setLoading true st))) with (baseCurrency st).
    unfold mbind, Async_bind, bind, try_catch.
    destruct (getExchangeRates (baseCurrency st) env w) as [[data | e] w1] eqn:Hrun.
    + by eexists _, _.
    + apply getExchangeRates_throws_unavailable in Hrun as ->. by eexists _, _.
Qed.

End Handlers.

End Screen.

Section ScreenHandlers.
Context `{JsonFavorites : Json (list string)}.
Context `{JsonSnapshot : Json (option CurrencyData)}.
Import CurrencyConverter.

Lemma loadFavoriteCurrencies_available env w st :
  storage_available env →
  ∃ w', loadFavoriteCurrencies st env w
          = (Return (setFavoriteCurrencies (stored_favorites w) st), w')
        ∧ disk w' = disk w.
Proof.
  intros Ha.
  destruct (getFavoriteCurrencies_available env Ha w) as (w' & Hget & Hd).
  exists w'. split; [| done].
  unfold loadFavoriteCurrencies. apply try_catch_return.
  by rewrite (bind_return _ _ _ _ _ _ Hget).
Qed.

(** X19. After a tap on the heart, the screen shows what the store holds:
    on an available store whose JSON gives the written sequence back,
    [handleToggleFavorite c] leaves the favourites cell equal to the
    stored favourites, with [c] in it exactly when it was not a favourite
    before; no other cell changes. *)
Theorem handleToggleFavorite_shows_stored_favorites env w c (st : State) :
  storage_available env →
  round_trips (if includes (stored_favorites w) c
               then filter (λ fav, fav ≠ c) (stored_favorites w)
               else stored_favorites w ++ [c]) →
  ∃ st' w', handleToggleFavorite c st env w = (Return st', w')
            ∧ favoriteCurrencies st' = stored_favorites w'
            ∧ includes (favoriteCurrencies st') c = negb (includes (stored_favorites w) c)
            ∧ st' = setFavoriteCurrencies (favoriteCurrencies st') st.
Proof.
  intros Ha Hrt.
  destruct (favorites_after_toggle env w c Ha Hrt) as (w1 & Htoggle & Hl).
  destruct (loadFavoriteCurrencies_available env w1 st Ha) as (w2 & Hload & Hd).
  exists (setFavoriteCurrencies (stored_favorites w1) st), w2.
  split; [| split; [| split]].
  - unfold handleToggleFavorite. apply try_catch_return.
    by rewrite (bind_return _ _ _ _ _ _ Htoggle).
  - simpl. symmetry. by apply stored_favorites_quiet.
  - simpl. rewrite Hl. destruct (includes (stored_favorites w) c) eqn:Hin; simpl.
    + apply includes_false, filter_excludes.
    + apply includes_true. set_solver.
  - done.
Qed.

(** X20. The base currency picked on the screen is the one found at the
    next start: when the store accepts the write and the read,
    [handleCurrencyChange c] for a non-empty code [c] sets the base
    currency cell to [c], and [loadBaseCurrency] run afterwards from any
    state sets it to [c] again. *)
Theorem handleCurrencyChange_survives_restart env w c (st st0 : State) :
  c ≠ "" →
  setItem_rejects env (calls is_write (history w)) BASE_CURRENCY_KEY = false →
  getItem_rejects env (calls is_read (history w)) BASE_CURRENCY_KEY = false →
  ∃ w1 w2, handleCurrencyChange c st env w = (Return (setBaseCurrency c st), w1)
           ∧ loadBaseCurrency st0 env w1 = (Return (setBaseCurrency c st0), w2).
Proof.
  intros Hc%string_truthy_nonempty Hw Hr.
  set (w1 := {| disk := <[BASE_CURRENCY_KEY := c]> (disk w);
                history := SetItem BASE_CURRENCY_KEY c :: history w |}).
  exists w1, (log_call (GetItem BASE_CURRENCY_KEY) w1). split.
  - unfold handleCurrencyChange. apply try_catch_return.
    by rewrite (bind_return _ _ _ _ _ _ (setBaseCurrency_accepted env w c Hw)).
  - unfold loadBaseCurrency. apply try_catch_return.
    rewrite (bind_return _ _ _ _ _ _ (getBaseCurrency_accepted env w1 Hr)).
    simpl. by rewrite lookup_insert_eq, Hc.
Qed.

Section Lists.
Variable sort_by_locale : list string → list string.
Hypothesis sort_permutes : ∀ l, sort_by_locale l ≡ₚ l.

Lemma popular_NoDup : NoDup POPULAR_CURRENCIES.
Proof. by apply (bool_decide_unpack _). Qed.

(** X21. The two lists of the screen never show the base currency: the
    main list holds each popular currency other than the base exactly
    once, and the favourites row holds exactly the favourites other than
    the base; this for any sort that only reorders. *)
Theorem lists_leave_out_base_currency (st : State) :
  (∀ c, c ∈ currencyList sort_by_locale st ↔
        (c ∈ POPULAR_CURRENCIES ∧ c ≠ baseCurrency st))
  ∧ NoDup (currencyList sort_by_locale st)
  ∧ (∀ c, c ∈ favoritesRow sort_by_locale st ↔
          (c ∈ favoriteCurrencies st ∧ c ≠ baseCurrency st))
  ∧ (baseCurrency st ∉ currencyList sort_by_locale st)
  ∧ (baseCurrency st ∉ favoritesRow sort_by_locale st).
Proof.
  assert (Hmem : ∀ l c, c ∈ getSortedCurrencies sort_by_locale
                          (filter (λ x, x ≠ baseCurrency st) l)
                        ↔ (c ∈ l ∧ c ≠ baseCurrency st)).
  { intros l c. unfold getSortedCurrencies.
    rewrite (sort_permutes _), list_elem_of_filter. tauto. }
  split; [exact (Hmem _) |]. split; [| split; [exact (Hmem _) |]].
  - unfold currencyList, getSortedCurrencies.
    rewrite (sort_permutes _). apply NoDup_filter, popular_NoDup.
  - split; intros Hin%Hmem; by destruct Hin.
Qed.

End Lists.

Section Rendering.
Variable formatCurrency : number → string → string.
Variable parseFloat : string → number.
Variable member_text : string → string.

(** X22. A currency without a usable rate is shown as zero: for a listed
    currency (different from the base, and not the name of a member of
    [Object.prototype]) whose rate is missing from the rate data, or
    falsy, and a finite amount, [renderCurrencyItem] shows the currency's
    symbol, a string, followed by [0.00], whatever the formatter. *)
Theorem renderedAmount_without_rate (st : State) data currency :
  currencyData st = Some data →
  currency ≠ baseCurrency st →
  is_inherited currency = false →
  match rates data !! currency with
  | Some rate => number_truthy rate = false
  | None => True
  end →
  is_finite (numericAmount parseFloat st) = true →
  ∃ symbol, getCurrencySymbol currency = Text symbol
            ∧ renderedAmount formatCurrency parseFloat member_text currency st
              = Some (symbol +:+ "0.00").
Proof.
  intros Hdata Hne Hnot Hrate Hfin.
  assert (Hsym : ∃ symbol, getCurrencySymbol currency = Text symbol).
  { unfold getCurrencySymbol, get_property. rewrite Hnot.
    destruct (symbols !! currency) as [glyph |]; [| by eexists].
    destruct (string_truthy glyph); by eexists. }
  destruct Hsym as [symbol Hsym]. exists symbol. split; [done |].
  unfold renderedAmount. rewrite Hdata. f_equal.
  assert (Hzero : convertCurrency (numericAmount parseFloat st) (baseCurrency st)
                    currency (rates data)
                  = S754_zero (sign_bit (numericAmount parseFloat st))).
  { unfold convertCurrency, get_property. rewrite bool_decide_eq_false_2 by done.
    rewrite Hnot.
    destruct (rates data !! currency) as [rate |]; [rewrite Hrate |];
      unfold pos_zero; rewrite js_mul_finite_zero by done; by rewrite xorb_false_r. }
  rewrite Hzero. unfold formatAmount. rewrite Hsym.
  by destruct (sign_bit (numericAmount parseFloat st)).
Qed.

End Rendering.

End ScreenHandlers.

(** ** The service on concrete stores *)

Import Reference Examples Scenarios.

(** *** The reference codec gives every sequence of strings back *)

Section ReferenceCodec.

Lemma append_cons c (a b : string) : String c a +:+ b = String c (a +:+ b).
Proof. reflexivity. Qed.

Lemma append_assoc (a b c : string) : (a +:+ b) +:+ c = a +:+ (b +:+ c).
Proof.
  induction a as [|x a IH]; [done |]. by rewrite !append_cons, IH.
Qed.

Lemma append_empty (a : string) : a +:+ "" = a.
Proof. induction a as [|x a IH]; [done |]. by rewrite append_cons, IH. Qed.

Lemma rev_app_rev_app (s acc rest : string) :
  String.rev_app (String.rev_app s acc) rest = String.rev_app acc (s +:+ rest).
Proof.
  revert acc. induction s as [|c s IH]; intros acc; [done |].
  simpl. by rewrite IH.
Qed.

(** Reading an escaped character puts the character itself on the
    accumulator: the 256 cases, each by computation. *)
Lemma lex_escape_char c acc rest :
  lex (InString acc) (escape_char c +:+ rest) = lex (InString (String c acc)) rest.
Proof. destruct c as [[] [] [] [] [] [] [] []]; reflexivity. Qed.

Lemma lex_escape s acc rest :
  lex (InString acc) (escape s +:+ rest) = lex (InString (String.rev_app s acc)) rest.
Proof.
  revert acc. induction s as [|c s IH]; intros acc; [done |].
  simpl escape. by rewrite append_assoc, lex_escape_char, IH.
Qed.

Lemma lex_quote s rest :
  lex Idle (quote s +:+ rest) = cons (TString s) <$> lex Idle rest.
Proof.
  unfold quote. rewrite append_cons, append_assoc.
  change (lex Idle (String dquote ?t)) with (lex (InString "") t).
  rewrite lex_escape, append_cons.
  change (lex (InString ?acc) (String dquote ?t))
    with (cons (TString (String.rev acc)) <$> lex Idle t).
  unfold String.rev. rewrite rev_app_rev_app. simpl.
  by rewrite append_empty.
Qed.

Lemma lex_tail x l :
  lex Idle (join "," (quote <$> x :: l) +:+ "]") = Some (TString x :: tail_tokens l).
Proof.
  revert x. induction l as [|y l IH]; intros x.
  - change (join "," (quote <$> [x])) with (quote x). by rewrite lex_quote.
  - change (join "," (quote <$> x :: y :: l))
      with (quote x +:+ "," +:+ join "," (quote <$> y :: l)).
    rewrite !append_assoc, lex_quote.
    change (lex Idle ("," +:+ ?t)) with (cons TComma <$> lex Idle t).
    by rewrite IH.
Qed.

Lemma more_strings_tail l : more_strings (tail_tokens l) = Some l.
Proof. induction l as [|x l IH]; [done |]. simpl. by rewrite IH. Qed.

Lemma parse_stringify_strings l : parse_strings (stringify_strings l) = Some l.
Proof.
  unfold parse_strings, stringify_strings.
  destruct l as [|x l]; [done |].
  change (lex Idle ("[" +:+ ?t)) with (cons TLBracket <$> lex Idle t).
  rewrite lex_tail. simpl. by rewrite more_strings_tail.
Qed.

Lemma reference_round_trips (l : list string) : round_trips l.
Proof. split; [done | apply parse_stringify_strings]. Qed.

End ReferenceCodec.

Lemma offline_available : storage_available offline.
Proof. by intros n key. Qed.

(** The end-to-end example of the specification: base USD, rates
    EUR 0.9 and JPY 150, amount 100. *)
Example convertCurrency_end_to_end :
  convertCurrency hundred "USD" "EUR" usd_rates = number_of_decimal false 90 0
  ∧ convertCurrency hundred "USD" "JPY" usd_rates = number_of_decimal false 15000 0
  ∧ convertCurrency hundred "USD" "USD" usd_rates = hundred.
Proof. vm_compute. done. Qed.

(** A stale cache and a working network: the snapshot is fetched, stamped
    with the clock reading, written to the cache and returned. *)
Example getExchangeRates_refreshes_stale_cache :
  let run := getExchangeRates "USD" online stale_world in
  run.1 = Return (mkCurrencyData usd_rates "USD" 1700000000000)
  ∧ cached_snapshot run.2 "USD" = Some (mkCurrencyData usd_rates "USD" 1700000000000)
  ∧ calls is_fetch (history run.2) = 1%nat.
Proof. vm_compute. done. Qed.

(** The fresh-cache theorem on a store holding a fresh snapshot. *)
Lemma getExchangeRates_fresh_cache_witness :
  cached_snapshot fresh_world "USD" = Some fresh_snapshot
  ∧ ∃ w', getExchangeRates "USD" offline fresh_world = (Return fresh_snapshot, w')
          ∧ disk w' = disk fresh_world
          ∧ calls is_write (history w') = calls is_write (history fresh_world)
          ∧ calls is_fetch (history w') = calls is_fetch (history fresh_world).
Proof.
  split; [vm_compute; reflexivity |].
  apply (getExchangeRates_fresh_cache offline fresh_world "USD" fresh_snapshot).
  - vm_compute; reflexivity.
  - reflexivity.
  - vm_compute; reflexivity.
Defined.

(** The network-failure theorem with the network down: the stale
    snapshot is returned, and with an empty store the call throws. *)
Lemma getExchangeRates_network_failure_witness :
  (∃ w', getExchangeRates "USD" offline stale_world = (Return stale_snapshot, w')
         ∧ read_only stale_world w')
  ∧ (∃ w', getExchangeRates "USD" offline empty_world =
             (Throw (Error "Unable to fetch exchange rates. Please check your internet connection."),
              w')
           ∧ read_only empty_world w').
Proof.
  split.
  - apply (proj1 (getExchangeRates_network_failure offline stale_world "USD" eq_refl)).
    + vm_compute; reflexivity.
    + reflexivity.
  - apply (proj2 (getExchangeRates_network_failure offline empty_world "USD" eq_refl)).
    reflexivity.
Defined.

(** A missing rate does not always give zero: with equal codes the
    amount comes back, whatever the table lacks; an infinite amount times
    the zero rate is [NaN]; and a target that names a member of
    [Object.prototype] finds that member in the empty table, which makes
    the product [NaN]. *)
Lemma convertCurrency_missing_rate_counterexample :
  (∅ : ExchangeRates) !! "USD" = None
  ∧ convertCurrency five "USD" "USD" ∅ = five
  ∧ is_zero five = false
  ∧ (∅ : ExchangeRates) !! "EUR" = None
  ∧ convertCurrency infinity "USD" "EUR" ∅ = S754_nan
  ∧ (∅ : ExchangeRates) !! "constructor" = None
  ∧ convertCurrency five "USD" "constructor" ∅ = S754_nan.
Proof. vm_compute. done. Qed.

Lemma convertCurrency_missing_rate_witness :
  convertCurrency five "EUR" "EUR" ∅ = five
  ∧ convertCurrency five "USD" "EUR" ∅ = js_mul five pos_zero
  ∧ convertCurrency five "USD" "EUR" ∅ = S754_zero false
  ∧ is_zero (convertCurrency five "USD" "EUR" ∅) = true.
Proof.
  split.
  - destruct (convertCurrency_missing_rate five "EUR" "EUR" ∅) as [Hsame _].
    + reflexivity.
    + reflexivity.
    + apply Hsame. reflexivity.
  - destruct (convertCurrency_missing_rate five "USD" "EUR" ∅) as [_ Hdiffer].
    + reflexivity.
    + reflexivity.
    + destruct Hdiffer as [Hmul Hzero]; [discriminate |].
      split; [exact Hmul |]. apply Hzero. reflexivity.
Defined.

(** Two toggles do not always return [true] then [false]: toggling a
    code that is already a favourite returns [false] and then [true], and
    leaves the code at the end. *)
Lemma toggleFavoriteCurrency_twice_counterexample :
  let first := toggleFavoriteCurrency "USD" offline favorites_world in
  let second := toggleFavoriteCurrency "USD" offline first.2 in
  stored_favorites favorites_world = ["USD"; "EUR"]
  ∧ first.1 = Return false
  ∧ second.1 = Return true
  ∧ stored_favorites second.2 = ["EUR"; "USD"].
Proof. vm_compute. done. Qed.

Lemma toggleFavoriteCurrency_twice_witness :
  ∃ b1 w1 b2 w2,
    toggleFavoriteCurrency "GBP" offline favorites_world = (Return b1, w1)
    ∧ toggleFavoriteCurrency "GBP" offline w1 = (Return b2, w2)
    ∧ b1 = includes (stored_favorites w1) "GBP"
    ∧ b2 = includes (stored_favorites w2) "GBP"
    ∧ ("GBP" ∉ stored_favorites favorites_world →
       b1 = true ∧ b2 = false ∧ stored_favorites w2 = stored_favorites favorites_world)
    ∧ ("GBP" ∈ stored_favorites favorites_world →
       b1 = false ∧ b2 = true
       ∧ stored_favorites w2 =
           filter (λ fav, fav ≠ "GBP") (stored_favorites favorites_world) ++ ["GBP"])
    ∧ (∀ x, x ∈ stored_favorites w2 ↔ x ∈ stored_favorites favorites_world).
Proof.
  apply (toggleFavoriteCurrency_twice offline favorites_world "GBP").
  - exact offline_available.
  - vm_compute. split; reflexivity.
  - vm_compute. split; reflexivity.
Defined.

(** EUR written to an empty store and read back; the default on an
    empty store. *)
Lemma base_currency_set_then_get_witness :
  (∃ w1 w2, setBaseCurrency "EUR" offline empty_world = (Return tt, w1)
            ∧ getBaseCurrency offline w1 = (Return "EUR", w2))
  ∧ (∃ w', getBaseCurrency broken empty_world = (Return "USD", w')).
Proof.
  split.
  - apply (proj1 base_currency_set_then_get offline empty_world "EUR").
    + discriminate.
    + reflexivity.
    + reflexivity.
  - apply (proj2 base_currency_set_then_get broken empty_world). reflexivity.
Defined.

(** The three mutators on the store holding USD, EUR, with GBP. *)
Lemma favorites_stay_unique_and_ordered_witness :
  (∃ w', addFavoriteCurrency "GBP" offline favorites_world = (Return tt, w')
         ∧ ("GBP" ∈ stored_favorites favorites_world →
            disk w' = disk favorites_world
            ∧ stored_favorites w' = stored_favorites favorites_world)
         ∧ ("GBP" ∉ stored_favorites favorites_world →
            stored_favorites w' = stored_favorites favorites_world ++ ["GBP"])
         ∧ preserves "GBP" (stored_favorites favorites_world) (stored_favorites w'))
  ∧ (∃ w', removeFavoriteCurrency "GBP" offline favorites_world = (Return tt, w')
           ∧ stored_favorites w' =
               filter (λ fav, fav ≠ "GBP") (stored_favorites favorites_world)
           ∧ preserves "GBP" (stored_favorites favorites_world) (stored_favorites w'))
  ∧ (∃ b w', toggleFavoriteCurrency "GBP" offline favorites_world = (Return b, w')
             ∧ preserves "GBP" (stored_favorites favorites_world) (stored_favorites w')).
Proof.
  apply (favorites_stay_unique_and_ordered offline favorites_world "GBP").
  - exact offline_available.
  - vm_compute. split; reflexivity.
  - vm_compute. split; reflexivity.
Defined.

(** The same three calls, evaluated. *)
Example favorites_mutations_evaluated :
  stored_favorites (addFavoriteCurrency "GBP" offline favorites_world).2
    = ["USD"; "EUR"; "GBP"]
  ∧ stored_favorites (addFavoriteCurrency "EUR" offline favorites_world).2
    = ["USD"; "EUR"]
  ∧ stored_favorites (removeFavoriteCurrency "USD" offline favorites_world).2
    = ["EUR"]
  ∧ stored_favorites (removeFavoriteCurrency "GBP" offline favorites_world).2
    = ["USD"; "EUR"].
Proof. vm_compute. done. Qed.

(** The empty string written and read back as USD. *)
Lemma base_currency_empty_string_is_default_witness :
  ∃ w1 w2, setBaseCurrency "" offline empty_world = (Return tt, w1)
           ∧ disk w1 !! BASE_CURRENCY_KEY = Some ""
           ∧ getBaseCurrency offline w1 = (Return "USD", w2).
Proof.
  apply (proj2 base_currency_empty_string_is_default offline empty_world).
  reflexivity.
Defined.

(** A sequence that holds USD twice, written and read back. *)
Lemma setFavoriteCurrencies_stores_verbatim_witness :
  ∃ w1 w2, setFavoriteCurrencies ["USD"; "EUR"; "USD"] offline empty_world = (Return tt, w1)
           ∧ stored_favorites w1 = ["USD"; "EUR"; "USD"]
           ∧ getFavoriteCurrencies offline w1 = (Return ["USD"; "EUR"; "USD"], w2).
Proof.
  apply (setFavoriteCurrencies_stores_verbatim offline empty_world ["USD"; "EUR"; "USD"]).
  - reflexivity.
  - reflexivity.
  - vm_compute. split; reflexivity.
Defined.

(** Why the fallback needs the read of the [catch] block to be
    accepted: on a store that rejects its reads the held snapshot is never
    seen, and the call throws. *)
Example getExchangeRates_unreadable_store :
  cached_snapshot stale_world "USD" = Some stale_snapshot
  ∧ (getExchangeRates "USD" broken stale_world).1 = Throw (Error unavailable).
Proof. vm_compute. done. Qed.

(** Storage faults absorbed: every call to the store is rejected, and
    the getters return their defaults; an undecodable favourites payload
    reads as the empty list. *)
Example getters_on_a_broken_store :
  (getCachedRates "USD" broken fresh_world).1 = Return None
  ∧ (getFavoriteCurrencies broken favorites_world).1 = Return []
  ∧ (getBaseCurrency broken empty_world).1 = Return "USD"
  ∧ (getFavoriteCurrencies offline corrupt_world).1 = Return []
  ∧ (toggleFavoriteCurrency "USD" broken favorites_world).1 = Return true.
Proof. vm_compute. done. Qed.

(** ** The further properties on concrete stores *)

Lemma online_fetch_succeeds w X : fetch_succeeds online w (ratesUrl X) usd_payload.
Proof. by eexists. Qed.

(** An empty store and a working network. *)
Lemma getExchangeRates_fetches_without_snapshot_witness :
  ∃ w', getExchangeRates "USD" online empty_world
          = (Return (stamped usd_payload 1700000000000), w')
        ∧ calls is_fetch (history w') = 1%nat
        ∧ disk w' =
            {[ cacheKey "USD" := stringify (Some (stamped usd_payload 1700000000000)) ]}.
Proof.
  destruct (getExchangeRates_fetches_without_snapshot online empty_world "USD" usd_payload)
    as (w' & Hrun & Hf & Hd).
  - reflexivity.
  - apply online_fetch_succeeds.
  - exists w'. split; [exact Hrun |]. split; [exact Hf | exact Hd].
Defined.

(** A snapshot exactly six hours old. *)
Lemma getExchangeRates_refetches_stale_witness :
  (CACHE_DURATION = 1700000000000 - timestamp boundary_snapshot)%Z
  ∧ ∃ w', getExchangeRates "USD" online boundary_world
            = (Return (stamped usd_payload 1700000000000), w')
          ∧ calls is_fetch (history w') = 1%nat.
Proof.
  split; [reflexivity |].
  destruct (getExchangeRates_refetches_stale online boundary_world "USD"
              boundary_snapshot usd_payload) as (w' & Hrun & Hf & _).
  - vm_compute; reflexivity.
  - reflexivity.
  - vm_compute. discriminate.
  - apply online_fetch_succeeds.
  - exists w'. split; [exact Hrun | exact Hf].
Defined.

Lemma getExchangeRates_second_call_served_from_cache_witness :
  ∃ w1 w2, getExchangeRates "USD" online empty_world
             = (Return (stamped usd_payload 1700000000000), w1)
           ∧ getExchangeRates "USD" online w1
             = (Return (stamped usd_payload 1700000000000), w2)
           ∧ calls is_fetch (history w1) = 1%nat
           ∧ calls is_fetch (history w2) = calls is_fetch (history w1)
           ∧ disk w2 = disk w1.
Proof.
  apply (getExchangeRates_second_call_served_from_cache online empty_world "USD" usd_payload).
  - reflexivity.
  - apply online_fetch_succeeds.
  - reflexivity.
  - vm_compute. split; reflexivity.
  - reflexivity.
  - vm_compute; reflexivity.
Defined.


Lemma rejected_write_keeps_previous_value_witness :
  ∃ w1 w2, setFavoriteCurrencies ["GBP"] write_protected favorites_world = (Return tt, w1)
           ∧ disk w1 = disk favorites_world
           ∧ getFavoriteCurrencies write_protected w1
             = (Return (stored_favorites favorites_world), w2).
Proof.
  apply (proj1 (rejected_write_keeps_previous_value write_protected favorites_world
                  ["GBP"] "GBP")).
  - reflexivity.
  - reflexivity.
Defined.

Lemma toggleFavoriteCurrency_write_rejected_witness :
  ∃ w', toggleFavoriteCurrency "GBP" write_protected favorites_world
          = (Return (negb (includes (stored_favorites favorites_world) "GBP")), w')
        ∧ disk w' = disk favorites_world
        ∧ includes (stored_favorites w') "GBP"
          = includes (stored_favorites favorites_world) "GBP".
Proof.
  apply (toggleFavoriteCurrency_write_rejected write_protected favorites_world "GBP").
  - reflexivity.
  - reflexivity.
  - reflexivity.
Defined.

(** The store holds USD, EUR; its read is rejected; GBP is added. *)
Lemma rejected_read_overwrites_favorites_witness :
  stored_favorites favorites_world = ["USD"; "EUR"]
  ∧ ∃ w', addFavoriteCurrency "GBP" unreadable favorites_world = (Return tt, w')
          ∧ stored_favorites w' = ["GBP"].
Proof.
  split; [vm_compute; reflexivity |].
  apply (proj1 (rejected_read_overwrites_favorites unreadable favorites_world "GBP"
                  eq_refl eq_refl)).
  vm_compute. split; reflexivity.
Defined.

Lemma favorites_operations_compose_witness :
  ∃ w1 w2, addFavoriteCurrency "GBP" offline favorites_world = (Return tt, w1)
           ∧ removeFavoriteCurrency "GBP" offline w1 = (Return tt, w2)
           ∧ stored_favorites w2 = stored_favorites favorites_world.
Proof.
  destruct (favorites_operations_compose offline favorites_world "GBP")
    as (_ & _ & Hundo).
  - exact offline_available.
  - vm_compute. split; reflexivity.
  - vm_compute. split; reflexivity.
  - apply Hundo. vm_compute. intros Hin.
    repeat (apply elem_of_cons in Hin as [Hin | Hin]; [discriminate Hin |]).
    by apply elem_of_nil in Hin.
Defined.

Lemma cacheRates_then_getCachedRates_witness :
  ∃ w1 w2, cacheRates "USD" fresh_snapshot offline empty_world = (Return tt, w1)
           ∧ getCachedRates "USD" offline w1 = (Return (Some fresh_snapshot), w2)
           ∧ (∀ Y, Y ≠ "USD" → cached_snapshot w1 Y = cached_snapshot empty_world Y).
Proof.
  apply (cacheRates_then_getCachedRates offline empty_world "USD" fresh_snapshot).
  - reflexivity.
  - reflexivity.
  - vm_compute. split; reflexivity.
Defined.

(** A table whose EUR rate is [NaN]. *)
Lemma convertCurrency_falsy_rate_witness :
  convertCurrency five "USD" "EUR" {[ "EUR" := S754_nan ]} = S754_zero false.
Proof.
  destruct (convertCurrency_falsy_rate five "USD" "EUR" {[ "EUR" := S754_nan ]} S754_nan)
    as (_ & Hmul & _).
  - discriminate.
  - reflexivity.
  - reflexivity.
  - reflexivity.
  - rewrite Hmul. reflexivity.
Defined.

Lemma convertCurrency_ignores_source_witness :
  convertCurrency hundred "EUR" "JPY" usd_rates = convertCurrency hundred "USD" "JPY" usd_rates
  ∧ convertCurrency hundred "EUR" "JPY" (<["EUR" := five]> usd_rates)
    = convertCurrency hundred "EUR" "JPY" usd_rates.
Proof.
  apply (convertCurrency_ignores_source hundred "EUR" "USD" "JPY" usd_rates five).
  - discriminate.
  - discriminate.
Defined.

(** Typing, pasting a text with letters, and a second dot. *)
Lemma handleAmountChange_keeps_amount_well_formed_witness :
  let st' := foldl (λ s text, CurrencyConverter.handleAmountChange text s)
               CurrencyConverter.initial ["1"; "12.5"; "12.5.0"; "-3e5 USD"] in
  CurrencyConverter.amount_ok (CurrencyConverter.amount st') = true
  ∧ CurrencyConverter.baseCurrency st' = "USD"
  ∧ CurrencyConverter.currencyData st' = None
  ∧ CurrencyConverter.loading st' = false
  ∧ CurrencyConverter.error st' = None
  ∧ CurrencyConverter.favoriteCurrencies st' = [].
Proof.
  apply (handleAmountChange_keeps_amount_well_formed
           ["1"; "12.5"; "12.5.0"; "-3e5 USD"] CurrencyConverter.initial).
  reflexivity.
Defined.

Lemma handleToggleFavorite_shows_stored_favorites_witness :
  ∃ st' w', CurrencyConverter.handleToggleFavorite "GBP" showing_rates offline favorites_world
              = (Return st', w')
            ∧ CurrencyConverter.favoriteCurrencies st' = stored_favorites w'
            ∧ includes (CurrencyConverter.favoriteCurrencies st') "GBP"
              = negb (includes (stored_favorites favorites_world) "GBP")
            ∧ st' = CurrencyConverter.setFavoriteCurrencies
                      (CurrencyConverter.favoriteCurrencies st') showing_rates.
Proof.
  apply (handleToggleFavorite_shows_stored_favorites offline favorites_world "GBP"
           showing_rates).
  - exact offline_available.
  - vm_compute. split; reflexivity.
Defined.

Lemma handleCurrencyChange_survives_restart_witness :
  ∃ w1 w2, CurrencyConverter.handleCurrencyChange "EUR" showing_rates offline empty_world
             = (Return (CurrencyConverter.setBaseCurrency "EUR" showing_rates), w1)
           ∧ CurrencyConverter.loadBaseCurrency CurrencyConverter.initial offline w1
             = (Return (CurrencyConverter.setBaseCurrency "EUR" CurrencyConverter.initial), w2).
Proof.
  apply (handleCurrencyChange_survives_restart offline empty_world "EUR"
           showing_rates CurrencyConverter.initial).
  - discriminate.
  - reflexivity.
  - reflexivity.
Defined.

(** The lists under a merge sort by code. *)
Lemma lists_leave_out_base_currency_witness :
  ("USD" ∉ CurrencyConverter.currencyList (merge_sort String.le) showing_rates)
  ∧ ("USD" ∉ CurrencyConverter.favoritesRow (merge_sort String.le) showing_rates)
  ∧ NoDup (CurrencyConverter.currencyList (merge_sort String.le) showing_rates).
Proof.
  destruct (lists_leave_out_base_currency (merge_sort String.le)
              (merge_sort_Permutation String.le) showing_rates)
    as (_ & Hnodup & _ & Hmain & Hrow).
  split; [exact Hmain |]. split; [exact Hrow | exact Hnodup].
Defined.

(** GBP has no rate in [usd_rates]. *)
Lemma renderedAmount_without_rate_witness :
  ∃ symbol, getCurrencySymbol "GBP" = Text symbol
            ∧ CurrencyConverter.renderedAmount plain_format decimal_of_text
                member_source "GBP" showing_rates
              = Some (symbol +:+ "0.00").
Proof.
  apply (renderedAmount_without_rate plain_format decimal_of_text member_source
           showing_rates fresh_snapshot "GBP").
  - reflexivity.
  - discriminate.
  - reflexivity.
  - vm_compute. exact I.
  - vm_compute. reflexivity.
Defined.

(** The screen evaluated: the rows shown for 100 USD, and a load with no
    network and nothing cached. *)
Example screen_evaluated :
  CurrencyConverter.currencyList (merge_sort String.le) showing_rates
    = [ "AUD"; "BRL"; "CAD"; "CHF"; "CNY"; "EUR"; "GBP"; "HKD"; "INR"; "JPY";
        "KRW"; "MXN"; "NOK"; "NZD"; "RUB"; "SEK"; "SGD"; "TRY"; "ZAR" ]
  ∧ CurrencyConverter.favoritesRow (merge_sort String.le) showing_rates = ["EUR"]
  ∧ CurrencyConverter.renderedAmount plain_format decimal_of_text member_source
      "EUR" showing_rates
    = Some "EUR 90"
  ∧ CurrencyConverter.renderedAmount plain_format decimal_of_text member_source
      "GBP" showing_rates
    = Some "£0.00"
  ∧ getCurrencySymbol "constructor" = Member
  ∧ CurrencyConverter.error
      (match (CurrencyConverter.loadExchangeRates (λ _, "") CurrencyConverter.initial
                offline empty_world).1 with
       | Return st => st
       | Throw _ => CurrencyConverter.initial
       end)
    = Some unavailable.
Proof. vm_compute. done. Qed.
